(** * Paris rental price predictor: feature encoding and prediction engine

    A shallow embedding of [computations.py], [utils/helpers.py] and
    [utils/constants.py], and the properties of the encoding and
    prediction routines proved over it.

    Modelling conventions.
    - A Python [float] that is finite is a rational number [Q]; arithmetic
      on it is exact (binary rounding is not modelled).  [np.expm1] leaves
      the rationals, so its result lives in [R].
    - A Python [str] is a [string] holding its UTF-8 bytes.
    - A Python [dict] that is only read by key is a [gmap]; a dict that is
      iterated in insertion order is an association list.
    - A raising call returns [Raise e]; [result] is the error monad. *)

From Stdlib Require Import Reals Lra QArith Qreals Ascii String DecimalString.
From stdpp Require Import gmap strings list fin_maps.

(** ** Exceptions and the error monad *)

Inductive pyexc : Set := ValueError | TypeError | KeyError.

Inductive result (A : Type) : Type :=
| Ok (a : A)
| Raise (e : pyexc).
Arguments Ok {A} a.
Arguments Raise {A} e.

#[global] Instance result_ret : MRet result := fun A a => Ok a.
#[global] Instance result_bind : MBind result :=
  fun A B f c => match c with Ok a => f a | Raise e => Raise e end.
#[global] Instance result_fmap : FMap result :=
  fun A B f c => match c with Ok a => Ok (f a) | Raise e => Raise e end.

Definition is_Ok {A} (c : result A) : Prop := exists a, c = Ok a.

(** ** Python values found in a user profile *)

#[warnings="-register-all"]
Inductive pyval : Type :=
| PyNone
| PyBool (b : bool)
| PyInt (z : Z)
| PyFloat (q : Q)
| PyStr (s : string)
| PyList (l : list pyval).

#[global] Instance pyval_inhabited : Inhabited pyval := populate PyNone.

(** ** Numbers *)

Module Num.

(** [int(x)] for a finite float: truncation toward zero. *)
Definition py_int_float (x : Q) : Z := Z.quot (Qnum x) (Zpos (Qden x)).

(** Nearest integer with ties to the even one, as [round] rounds. *)
Definition round_half_even (x : Q) : Z :=
  let n := Qnum x in
  let d := Zpos (Qden x) in
  let f := (n / d)%Z in
  let r2 := (2 * (n mod d))%Z in
  if (r2 <? d)%Z then f
  else if (d <? r2)%Z then (f + 1)%Z
  else if Z.even f then f else (f + 1)%Z.

(** [round(x, ndigits)] for [ndigits >= 0]: the decimal with [ndigits]
    places nearest to [x]. *)
Definition py_round (x : Q) (ndigits : N) : Q :=
  let scale := Z.to_pos (10 ^ Z.of_N ndigits) in
  Qmake (round_half_even (x * inject_Z (Zpos scale))) scale.

(** [np.expm1]. *)
Definition np_expm1 (x : Q) : R := (exp (Q2R x) - 1)%R.

(** [int(r)] for the real number that [np.expm1] returns: truncation
    toward zero. *)
Definition py_int_real (r : R) : Z :=
  if Rle_dec 0 r then Int_part r else (- Int_part (- r))%Z.

End Num.

(** ** Confidence intervals (quartile-based RMSE) *)

Definition airbnb_confidence_interval (prediction : Q) : Q * Q :=
  let rmse :=
    (if Qlt_le_dec prediction 102 then 40.20
     else if Qlt_le_dec prediction 151 then 40.44
     else if Qlt_le_dec prediction 239 then 53.07
     else 115.52)%Q in
  (prediction - rmse, prediction + rmse)%Q.

Definition renting_confidence_interval (prediction : Q) : Q * Q :=
  let rmse :=
    (if Qlt_le_dec prediction 560.17 then 30.29
     else if Qlt_le_dec prediction 1379.23 then 87.73
     else if Qlt_le_dec prediction 2025.77 then 159.46
     else 191.43)%Q in
  (prediction - rmse, prediction + rmse)%Q.

(** ** Price obtained from a raw model output *)

(** Lines 162-164 of [run_computations_airbnb]: the value stored under
    ["user_price_prediction"] for the raw output [log_pred]. *)
Definition user_price_prediction (log_pred : Q) : Z :=
  let nightly_price := Num.np_expm1 (Num.py_round log_pred 4) in
  Num.py_int_real nightly_price.

(** [int(np.expm1(log_pred))], the price of the sweep and of the KPIs. *)
Definition price_of_log (log_pred : Q) : Z :=
  Num.py_int_real (Num.np_expm1 log_pred).



(** ** Strings

    The [str] methods that the encoder uses, on byte strings.  They agree
    with Python on ASCII text.  Outside ASCII a byte is neither white
    space nor a cased letter, with one exception: the letter U+00E2,
    which [clean_amenity_name] itself writes into a label, is title-cased
    to U+00C2 as Python does. *)

Module PyStr.

Definition code (c : ascii) : N := N_of_ascii c.

(** [str.isspace] on ASCII: TAB..CR, FS..US and the space. *)
Definition is_space (c : ascii) : bool :=
  ((9 <=? code c) && (code c <=? 13) || (28 <=? code c) && (code c <=? 32))%N.

Definition is_lower (c : ascii) : bool := ((97 <=? code c) && (code c <=? 122))%N.
Definition is_upper (c : ascii) : bool := ((65 <=? code c) && (code c <=? 90))%N.
Definition is_cased (c : ascii) : bool := is_lower c || is_upper c.

Definition to_upper (c : ascii) : ascii :=
  if is_lower c then ascii_of_N (code c - 32) else c.
Definition to_lower (c : ascii) : ascii :=
  if is_upper c then ascii_of_N (code c + 32) else c.

Definition digit_value (c : ascii) : option Z :=
  if ((48 <=? code c) && (code c <=? 57))%N
  then Some (Z.of_N (code c) - 48)%Z else None.

Fixpoint lstrip (s : string) : string :=
  match s with
  | EmptyString => EmptyString
  | String c s' => if is_space c then lstrip s' else s
  end.

(** [s.rstrip(chars)], the set of characters given as a predicate. *)
Fixpoint rstrip_with (f : ascii -> bool) (s : string) : string :=
  match s with
  | EmptyString => EmptyString
  | String c s' =>
      match rstrip_with f s' with
      | EmptyString => if f c then EmptyString else String c EmptyString
      | r => String c r
      end
  end.

Definition rstrip (chars : string) (s : string) : string :=
  rstrip_with (fun c => bool_decide (c ∈ list_ascii_of_string chars)) s.

(** [s.strip()] *)
Definition strip (s : string) : string := rstrip_with is_space (lstrip s).

(** [s.replace(old, new)]: every occurrence, left to right, without
    overlap.  [skip] counts the characters of a match still to drop. *)
Fixpoint replace_from (old new : string) (skip : nat) (s : string) : string :=
  match s with
  | EmptyString => EmptyString
  | String c s' =>
      match skip with
      | S k => replace_from old new k s'
      | O =>
          if String.prefix old s
          then new +:+ replace_from old new (String.length old - 1) s'
          else String c (replace_from old new 0 s')
      end
  end.

Fixpoint replace_empty (new : string) (s : string) : string :=
  match s with
  | EmptyString => new
  | String c s' => new +:+ String c (replace_empty new s')
  end.

Definition replace (old new : string) (s : string) : string :=
  match old with
  | EmptyString => replace_empty new s
  | _ => replace_from old new 0 s
  end.

(** [s.title()]: a cased character is upper-cased after an uncased one
    and lower-cased after a cased one.  The bytes 195 162 are U+00E2. *)
Fixpoint title_from (previous_is_cased : bool) (s : string) : string :=
  match s with
  | EmptyString => EmptyString
  | String c s' =>
      if is_cased c then
        String (if previous_is_cased then to_lower c else to_upper c)
               (title_from true s')
      else
        match s' with
        | String c2 s'' =>
            if ((code c =? 195) && (code c2 =? 162))%N then
              String c (String (if previous_is_cased then c2
                                else ascii_of_N 130)
                               (title_from true s''))
            else String c (title_from false s')
        | EmptyString => String c EmptyString
        end
  end.

Definition title (s : string) : string := title_from false s.

(** The digits of [int(s)]: one or more digits, single underscores
    allowed between digits. *)
Fixpoint digits_from (acc : Z) (after_digit : bool) (s : string) : option Z :=
  match s with
  | EmptyString => if after_digit then Some acc else None
  | String c s' =>
      match digit_value c with
      | Some d => digits_from (10 * acc + d) true s'
      | None =>
          if (code c =? 95)%N && after_digit
          then digits_from acc false s' else None
      end
  end.

(** [int(s)] on a string: surrounding white space, an optional sign,
    then decimal digits; [None] where Python raises [ValueError]. *)
Definition to_int (s : string) : option Z :=
  match strip s with
  | String c s' =>
      if (code c =? 45)%N then Z.opp <$> digits_from 0 false s'
      else if (code c =? 43)%N then digits_from 0 false s'
      else digits_from 0 false (String c s')
  | EmptyString => None
  end.

(** [str(z)] for an integer. *)
Definition of_int (z : Z) : string := NilZero.string_of_int (Z.to_int z).

End PyStr.

(** ** Coercions *)

(** [bool(v)] *)
Definition py_bool (v : pyval) : bool :=
  match v with
  | PyNone => false
  | PyBool b => b
  | PyInt z => negb (z =? 0)%Z
  | PyFloat q => negb (Qeq_bool q 0)
  | PyStr s => negb (String.eqb s "")
  | PyList l => match l with [] => false | _ => true end
  end.

(** [int(v)] *)
Definition py_int (v : pyval) : result Z :=
  match v with
  | PyInt z => Ok z
  | PyBool b => Ok (Z.b2z b)
  | PyFloat q => Ok (Num.py_int_float q)
  | PyStr s =>
      match PyStr.to_int s with Some z => Ok z | None => Raise ValueError end
  | PyNone | PyList _ => Raise TypeError
  end.

(** [a or b] *)
Definition py_or (a b : pyval) : pyval := if py_bool a then a else b.

(** The items that [for x in v] visits. *)
Definition py_iter (v : pyval) : result (list pyval) :=
  match v with
  | PyList l => Ok l
  | PyStr s => Ok ((fun c => PyStr (String c EmptyString)) <$> list_ascii_of_string s)
  | _ => Raise TypeError
  end.

(** [v == s] for a string [s] *)
Definition py_eq_str (v : pyval) (s : string) : bool :=
  match v with PyStr s' => String.eqb s' s | _ => false end.

(** ** [utils/constants.py] *)

(** A dict with integer keys, in insertion order. *)
Fixpoint dict_get {V} (k : Z) (d : list (Z * V)) : option V :=
  match d with
  | [] => None
  | (k', v) :: d' => if decide (k = k') then Some v else dict_get k d'
  end.

(** [d[k]] *)
Definition dict_getitem {V} (k : Z) (d : list (Z * V)) : result V :=
  match dict_get k d with Some v => Ok v | None => Raise KeyError end.

Definition ARRONDISSEMENT_MAP : list (Z * string) :=
  [ (1, "Arrondissement_1er"); (2, "Arrondissement_2e");
    (3, "Arrondissement_3e"); (4, "Arrondissement_4e");
    (5, "Arrondissement_5e"); (6, "Arrondissement_6e");
    (7, "Arrondissement_7e"); (8, "Arrondissement_8e");
    (9, "Arrondissement_9e"); (10, "Arrondissement_10e");
    (11, "Arrondissement_11e"); (12, "Arrondissement_12e");
    (13, "Arrondissement_13e"); (14, "Arrondissement_14e");
    (15, "Arrondissement_15e"); (16, "Arrondissement_16e");
    (17, "Arrondissement_17e"); (18, "Arrondissement_18e");
    (19, "Arrondissement_19e"); (20, "Arrondissement_20e") ]%Z.

Definition INSEE_MAP : list (Z * Z) :=
  [ (1, 75101); (2, 75102); (3, 75103); (4, 75104); (5, 75105);
    (6, 75106); (7, 75107); (8, 75108); (9, 75109); (10, 75110);
    (11, 75111); (12, 75112); (13, 75113); (14, 75114); (15, 75115);
    (16, 75116); (17, 75117); (18, 75118); (19, 75119); (20, 75120) ]%Z.

Definition ARRONDISSEMENT_COLUMNS : list string := ARRONDISSEMENT_MAP.*2.

Definition MEDIAN_ARRONDISSEMENT : Z := 10.

(** ** [utils/helpers.py] *)

(** The replacement text of the "special dash fix": the UTF-8 bytes of
    U+00E2 U+20AC U+201C, as they stand in the source file. *)
Definition dash_fix : string :=
  string_of_list_ascii
    (ascii_of_N <$> [195; 162; 226; 130; 172; 226; 128; 156]%N).

Definition clean_amenity_name (model_column : string) : string :=
  let name := PyStr.rstrip "_" (PyStr.replace "amenity__" "" model_column) in
  let name := PyStr.replace "_" " " name in
  let name := PyStr.replace "u2013" dash_fix name in
  PyStr.title (PyStr.strip name).

Definition build_amenity_maps (feature_list : list string)
  : gmap string string * gmap string string :=
  let amenity_cols := List.filter (String.prefix "amenity__") feature_list in
  let label_to_col :=
    foldl (fun m c => <[clean_amenity_name c := c]> m) ∅ amenity_cols in
  let col_to_label :=
    foldl (fun m c => <[c := clean_amenity_name c]> m) ∅ amenity_cols in
  (label_to_col, col_to_label).

(** ** Data frames

    Every frame of the program has one row: a frame is the list of its
    columns, each a label and the cell of that row. *)

Definition DataFrame : Type := list (string * pyval).

Definition df_columns (df : DataFrame) : list string := df.*1.

(** [c in df] *)
Definition df_contains (c : string) (df : DataFrame) : bool :=
  bool_decide (c ∈ df_columns df).

(** [df[c] = v]: every column labelled [c] takes the value; a label that
    the frame lacks is appended as a new column. *)
Definition df_setitem (c : string) (v : pyval) (df : DataFrame) : DataFrame :=
  if df_contains c df
  then (fun col => if String.eqb col.1 c then (col.1, v) else col) <$> df
  else df ++ [(c, v)].

(** The cells of the columns labelled [c]. *)
Definition df_cells (c : string) (df : DataFrame) : list pyval :=
  (List.filter (fun col => String.eqb col.1 c) df).*2.

(** [df[[c1, ..., cn]]]: for each listed label the columns that carry it,
    [KeyError] for a label that no column carries. *)
Definition df_select (cols : list string) (df : DataFrame) : result DataFrame :=
  (fun found : list DataFrame => List.concat found) <$>
    mapM (fun c =>
            match List.filter (fun col => String.eqb col.1 c) df with
            | [] => Raise KeyError
            | found => Ok found
            end) cols.

(** [df.columns = labels] *)
Definition df_set_columns (labels : list string) (df : DataFrame)
  : result DataFrame :=
  if decide (length labels = length df) then Ok (zip labels df.*2)
  else Raise ValueError.

(** The column labelled [c] is there and holds [v]. *)
Definition column_is (c : string) (v : pyval) (df : DataFrame) : Prop :=
  df_cells c df <> [] /\ Forall (eq v) (df_cells c df).

(** The loop [for c in cols: if c in df: df[c] = 0] of the sweep and of
    the baseline. *)
Definition zero_present (cols : list string) (df : DataFrame) : DataFrame :=
  foldl (fun df c => if df_contains c df then df_setitem c (PyInt 0) df else df)
        df cols.

(** The loop [for col in cols: df[col] = 0] of the median frame. *)
Definition zero_all (cols : list string) (df : DataFrame) : DataFrame :=
  foldl (fun df c => df_setitem c (PyInt 0) df) df cols.

(** A fitted estimator, through [float(model.predict(df)[0])]. *)
Definition Model : Type := DataFrame -> Q.

(** ** [computations.py] *)

(** [feat[col]] *)
Definition feat_getitem (feat : gmap string pyval) (col : string) : result pyval :=
  match feat !! col with Some v => Ok v | None => Raise KeyError end.

(** [if col in feat: feat[col] = v], where [col] may be [None]. *)
Definition feat_mark (col : option string) (v : pyval)
    (feat : gmap string pyval) : gmap string pyval :=
  match col with
  | Some c => if decide (is_Some (feat !! c)) then <[c := v]> feat else feat
  | None => feat
  end.

(** [{name: 0 for name in features}] *)
Definition feat_init (features : list string) : gmap string pyval :=
  foldl (fun feat name => <[name := PyInt 0]> feat) ∅ features.

(** [pd.DataFrame([[feat[col] for col in features]], columns=features)] *)
Definition feat_frame (features : list string) (feat : gmap string pyval)
  : result DataFrame :=
  row ← mapM (feat_getitem feat) features;
  Ok (zip features row).

(** [d.get(label)] on a dict keyed by strings: an unhashable key raises,
    a key of another type is not found. *)
Definition label_get (d : gmap string string) (label : pyval)
  : result (option string) :=
  match label with
  | PyStr s => Ok (d !! s)
  | PyList _ => Raise TypeError
  | _ => Ok None
  end.

Definition room_types : list string :=
  ["Entire home/apt"; "Hotel room"; "Private room"; "Shared room"].

Definition rent_features : list string :=
  [ "Nombre de pièces principales";
    "Arrondissement_10e"; "Arrondissement_11e"; "Arrondissement_12e";
    "Arrondissement_13e"; "Arrondissement_14e"; "Arrondissement_15e";
    "Arrondissement_16e"; "Arrondissement_17e"; "Arrondissement_18e";
    "Arrondissement_19e"; "Arrondissement_1er"; "Arrondissement_20e";
    "Arrondissement_2e"; "Arrondissement_3e"; "Arrondissement_4e";
    "Arrondissement_5e"; "Arrondissement_6e"; "Arrondissement_7e";
    "Arrondissement_8e"; "Arrondissement_9e";
    "Type de locationom_meublé";
    "Type de locationom_non meublé" ].

(** The value that both builders pass to [int] for the arrondissement. *)
Definition arrondissement_arg (user_profile : gmap string pyval) : pyval :=
  default (PyInt 1) (user_profile !! "arrondissement").

(** The dict [feat] of [build_renting_feature_df] after its assignments. *)
Definition renting_feat (user_profile : gmap string pyval)
  : result (gmap string pyval) :=
  let feat := feat_init rent_features in
  (* Arrondissement one-hot *)
  arr_num ← py_int (default (PyInt 1) (user_profile !! "arrondissement"));
  let arr_col := dict_get arr_num ARRONDISSEMENT_MAP in
  let feat := feat_mark arr_col (PyInt 1) feat in
  (* Number of rooms *)
  let feat := <["Nombre de pièces principales" :=
                  default PyNone (user_profile !! "Number of rooms renting")]> feat in
  (* Furnished / unfurnished *)
  let furnished := py_bool (default (PyBool false) (user_profile !! "furnished")) in
  let feat := <["Type de locationom_meublé" := PyInt (Z.b2z furnished)]> feat in
  let feat := <["Type de locationom_non meublé" := PyInt (Z.b2z (negb furnished))]> feat in
  Ok feat.

Definition build_renting_feature_df (user_profile : gmap string pyval)
  : result DataFrame :=
  feat ← renting_feat user_profile;
  feat_frame rent_features feat.

(** The stored monthly rent and cleaning cost: [int(pred)]. *)
Definition user_renting_price_prediction (pred : Q) : Z := Num.py_int_float pred.
Definition user_cleaning_cost_prediction (cleaning_pred : Q) : Z :=
  Num.py_int_float cleaning_pred.

(** A profile typed as the data model has it: an integer field, when
    present, holds an integer, and the amenity field a list of strings. *)
Definition int_field (user_profile : gmap string pyval) (k : string) : bool :=
  match user_profile !! k with
  | None | Some (PyInt _) => true
  | _ => false
  end.

Definition is_str (v : pyval) : bool :=
  match v with PyStr _ => true | _ => false end.

Definition typed_profile (user_profile : gmap string pyval) : bool :=
  int_field user_profile "host_listings_count"
  && int_field user_profile "bathrooms"
  && int_field user_profile "bedrooms"
  && int_field user_profile "arrondissement"
  && match user_profile !! "amenities" with
     | None => true
     | Some (PyList labels) => forallb is_str labels
     | _ => false
     end.

Record sweep_row : Type := {
  Arrondissement_Code : string;
  Avg_Price_Apt : Z;
  Arrondissement_Number : Z
}.

Record impact_kpis : Type := {
  location_impact : Z;
  quality_impact : Z;
  median_location_price : Z;
  baseline_price : Z
}.

Section Engine.

(** The input columns [model_airbnb_price.feature_names_in_] and the
    three estimators, which the program unpickles at import. *)
Variable airbnb_features : list string.
Variables model_airbnb_price model_cleaning_costs model_renting_price : Model.

Definition label_to_amenity_col : gmap string string :=
  (build_amenity_maps airbnb_features).1.
Definition amenity_col_to_label : gmap string string :=
  (build_amenity_maps airbnb_features).2.

(** The room-type loop of [build_airbnb_feature_df]. *)
Definition room_loop (room_type : pyval) (feat : gmap string pyval)
  : gmap string pyval :=
  foldl (fun feat rt =>
           feat_mark (Some ("room_" +:+ rt))
                     (PyInt (Z.b2z (py_eq_str room_type rt))) feat)
        feat room_types.

(** The amenity loop of [build_airbnb_feature_df]. *)
Fixpoint amenity_loop (labels : list pyval) (feat : gmap string pyval)
  : result (gmap string pyval) :=
  match labels with
  | [] => Ok feat
  | label :: rest =>
      model_col ← label_get label_to_amenity_col label;
      amenity_loop rest (feat_mark model_col (PyInt 1) feat)
  end.

(** The dict [feat] of [build_airbnb_feature_df] after its assignments. *)
Definition airbnb_feat (user_profile : gmap string pyval)
  : result (gmap string pyval) :=
  let feat := feat_init airbnb_features in
  (* Basic numeric inputs *)
  let feat := <["host_is_superhost" :=
    PyInt (Z.b2z (py_bool (default (PyBool false)
                             (user_profile !! "host_is_superhost"))))]> feat in
  listings ← py_int (default (PyInt 0) (user_profile !! "host_listings_count"));
  let feat := <["host_listings_count" := PyInt listings]> feat in
  let feat := <["host_identity_verified" :=
    PyInt (Z.b2z (py_bool (default (PyBool false)
                             (user_profile !! "host_identity_verified"))))]> feat in
  bathrooms ← py_int (default (PyInt 1) (user_profile !! "bathrooms"));
  let feat := <["bathrooms_text" := PyInt bathrooms]> feat in
  bedrooms ← py_int (default (PyInt 1) (user_profile !! "bedrooms"));
  let feat := <["bedrooms" := PyInt bedrooms]> feat in
  (* Arrondissement one-hot *)
  arr_num ← py_int (default (PyInt 1) (user_profile !! "arrondissement"));
  let arr_col := dict_get arr_num ARRONDISSEMENT_MAP in
  let feat := feat_mark arr_col (PyInt 1) feat in
  (* Room type one-hot *)
  let room_type :=
    default (PyStr "Entire home/apt") (user_profile !! "room_type") in
  let feat := room_loop room_type feat in
  (* Amenities one-hot *)
  labels ← py_iter (py_or (default (PyList []) (user_profile !! "amenities"))
                          (PyList []));
  amenity_loop labels feat.

Definition build_airbnb_feature_df (user_profile : gmap string pyval)
  : result DataFrame :=
  feat ← airbnb_feat user_profile;
  (* Frame in the column order of the model *)
  feat_frame airbnb_features feat.

(** [run_computations_airbnb]: the session state after the call and
    whether the call raised. *)
Definition run_computations_airbnb (user_data : gmap string pyval)
    (session_state : gmap string Z) : gmap string Z * result () :=
  match build_airbnb_feature_df user_data with
  | Raise e => (session_state, Raise e)
  | Ok df =>
      let log_pred := model_airbnb_price df in
      let session_state :=
        <["user_price_prediction" := user_price_prediction log_pred]>
          session_state in
      match df_select ["bedrooms"; "bathrooms_text"] df
            ≫= df_set_columns ["Bedroom"; "Bathroom"] with
      | Raise e => (session_state, Raise e)
      | Ok df_clean =>
          let cleaning_pred := model_cleaning_costs df_clean in
          (<["user_cleaning_cost_prediction" :=
               user_cleaning_cost_prediction cleaning_pred]> session_state,
           Ok ())
      end
  end.

(** [run_computations_renting] *)
Definition run_computations_renting (user_data : gmap string pyval)
    (session_state : gmap string Z) : gmap string Z * result () :=
  match build_renting_feature_df user_data with
  | Raise e => (session_state, Raise e)
  | Ok df =>
      let pred := model_renting_price df in
      (<["user_renting_price_prediction" :=
           user_renting_price_prediction pred]> session_state, Ok ())
  end.

(** The frame that one turn of the sweep scores: [df_temp]. *)
Definition sweep_frame (base_df : DataFrame) (arr_col : string) : DataFrame :=
  let df_temp :=
    foldl (fun df c => if df_contains c df then df_setitem c (PyInt 0) df else df)
          base_df ARRONDISSEMENT_COLUMNS in
  if df_contains arr_col df_temp then df_setitem arr_col (PyInt 1) df_temp
  else df_temp.

Definition predict_all_arrondissement_prices (user_data : gmap string pyval)
  : result (list sweep_row) :=
  base_df ← build_airbnb_feature_df user_data;
  mapM (fun item : Z * string =>
          let (arr_num, arr_col) := item in
          let df_temp := sweep_frame base_df arr_col in
          let log_pred := model_airbnb_price df_temp in
          let price := price_of_log log_pred in
          code ← dict_getitem arr_num INSEE_MAP;
          Ok {| Arrondissement_Code := PyStr.of_int code;
                Avg_Price_Apt := price;
                Arrondissement_Number := arr_num |})
       ARRONDISSEMENT_MAP.

(** [df_median] of [calculate_price_impact_kpis] *)
Definition median_frame (base_df : DataFrame) (median_col : string) : DataFrame :=
  let df_median :=
    foldl (fun df col => df_setitem col (PyInt 0) df)
          base_df ARRONDISSEMENT_COLUMNS in
  df_setitem median_col (PyInt 1) df_median.

(** [df_base] of [calculate_price_impact_kpis] *)
Definition baseline_frame (df_median : DataFrame) : DataFrame :=
  let df_base := df_setitem "host_is_superhost" (PyInt 0) df_median in
  let df_base := df_setitem "host_listings_count" (PyInt 1) df_base in
  let df_base := df_setitem "bedrooms" (PyInt 1) df_base in
  let df_base := df_setitem "bathrooms_text" (PyInt 1) df_base in
  foldl (fun df amenity_col =>
           if df_contains amenity_col df
           then df_setitem amenity_col (PyInt 0) df else df)
        df_base (map_to_list label_to_amenity_col).*2.

Definition calculate_price_impact_kpis (user_data : gmap string pyval)
    (current_predicted_price : Z) : result impact_kpis :=
  base_df ← build_airbnb_feature_df user_data;
  match dict_get MEDIAN_ARRONDISSEMENT ARRONDISSEMENT_MAP with
  | None => Raise KeyError
  | Some median_col =>
      let df_median := median_frame base_df median_col in
      let median_price := price_of_log (model_airbnb_price df_median) in
      let df_base := baseline_frame df_median in
      let baseline_price := price_of_log (model_airbnb_price df_base) in
      Ok {| location_impact := current_predicted_price - median_price;
            quality_impact := median_price - baseline_price;
            median_location_price := median_price;
            baseline_price := baseline_price |}
  end.

End Engine.

(** ** Sample inputs *)

Definition sample_features : list string :=
  [ "host_is_superhost"; "host_listings_count"; "host_identity_verified";
    "bathrooms_text"; "bedrooms";
    "Arrondissement_1er"; "Arrondissement_2e"; "Arrondissement_3e";
    "Arrondissement_4e"; "Arrondissement_5e"; "Arrondissement_6e";
    "Arrondissement_7e"; "Arrondissement_8e"; "Arrondissement_9e";
    "Arrondissement_10e"; "Arrondissement_11e"; "Arrondissement_12e";
    "Arrondissement_13e"; "Arrondissement_14e"; "Arrondissement_15e";
    "Arrondissement_16e"; "Arrondissement_17e"; "Arrondissement_18e";
    "Arrondissement_19e"; "Arrondissement_20e";
    "room_Entire home/apt"; "room_Hotel room"; "room_Private room";
    "room_Shared room";
    "amenity__wifi"; "amenity__hot_tub"; "amenity__kitchen" ].

Definition sample_profile : gmap string pyval :=
  <["bedrooms" := PyInt 2]>
    (<["bathrooms" := PyInt 1]>
       (<["arrondissement" := PyInt 10]>
          (<["room_type" := PyStr "Entire home/apt"]>
             (<["amenities" := PyList [PyStr "Wifi"]]> ∅)))).

Definition far_profile : gmap string pyval :=
  <["arrondissement" := PyInt 25]> sample_profile.

(** ** Reading a frame and a profile *)

(** Does one of the listed labels resolve, through the catalog, to the
    column [c]?  (The test of the amenity loop, for a whole list.) *)
Definition selects (airbnb_features : list string) (labels : list pyval)
    (c : string) : bool :=
  existsb (fun label =>
             match label with
             | PyStr s =>
                 bool_decide (label_to_amenity_col airbnb_features !! s = Some c)
             | _ => false
             end) labels.

(** The amenity labels that the nightly builder iterates over. *)
Definition amenities_arg (user_profile : gmap string pyval) : pyval :=
  py_or (default (PyList []) (user_profile !! "amenities")) (PyList []).


(** Two frames with the same labels whose cells agree in every column
    outside [P]. *)
Definition frames_agree (P : string -> Prop) (df1 df2 : DataFrame) : Prop :=
  Forall2 (fun a b : string * pyval => a.1 = b.1 /\ (~ P a.1 -> a.2 = b.2))
          df1 df2.

(** A string without the character [_]. *)
Definition underscore_free (s : string) : Prop :=
  Forall (fun ch : ascii => ch <> "_"%char) (list_ascii_of_string s).

(** * Properties *)

(** ** The string methods on examples *)

Example strip_title : PyStr.title (PyStr.strip "  wifi high speed ") = "Wifi High Speed".
Proof. reflexivity. Qed.
Example replace_all : PyStr.replace "_" " " "a_b__c" = "a b  c".
Proof. reflexivity. Qed.
Example to_int_examples :
  PyStr.to_int " 12 " = Some 12%Z /\ PyStr.to_int "-7" = Some (-7)%Z /\
  PyStr.to_int "1_000" = Some 1000%Z /\ PyStr.to_int "abc" = None /\
  PyStr.to_int "" = None /\ PyStr.to_int "1__0" = None /\ PyStr.to_int "3.5" = None.
Proof. repeat split; reflexivity. Qed.

(** ** Truncation and rounding *)

Section Truncation.
Local Open Scope R_scope.






Lemma np_expm1_neg (x : Q) : Q2R x < 0 -> Num.np_expm1 x < 0.
Proof.
  intros Hx. unfold Num.np_expm1.
  pose proof (exp_increasing _ _ Hx) as H. rewrite exp_0 in H. lra.
Qed.


End Truncation.

(** ** Confidence intervals *)

Lemma interval_contains (x r : Q) : (0 <= r -> x - r <= x /\ x <= x + r)%Q.
Proof.
  intros Hr. split.
  - rewrite Qle_minus_iff.
    assert (E : (x + - (x - r) == r)%Q) by ring. rewrite E. exact Hr.
  - rewrite Qle_minus_iff.
    assert (E : (x + r + - x == r)%Q) by ring. rewrite E. exact Hr.
Qed.

(** C2.  Each lookup returns [(x - r, x + r)] with [r] the RMSE of the
    bucket that holds [x]; the point estimate lies between the two
    bounds; and the nightly lookup at 100 and at 200 gives
    (59.8, 140.2) and (146.93, 253.07). *)
Theorem confidence_interval_buckets :
  (forall x : Q,
      (exists r : Q,
          airbnb_confidence_interval x = (x - r, x + r)%Q /\
          ((x < 102 /\ r = 40.20) \/
           (102 <= x /\ x < 151 /\ r = 40.44) \/
           (151 <= x /\ x < 239 /\ r = 53.07) \/
           (239 <= x /\ r = 115.52))%Q) /\
      (exists r : Q,
          renting_confidence_interval x = (x - r, x + r)%Q /\
          ((x < 560.17 /\ r = 30.29) \/
           (560.17 <= x /\ x < 1379.23 /\ r = 87.73) \/
           (1379.23 <= x /\ x < 2025.77 /\ r = 159.46) \/
           (2025.77 <= x /\ r = 191.43))%Q) /\
      (fst (airbnb_confidence_interval x) <= x
       /\ x <= snd (airbnb_confidence_interval x))%Q /\
      (fst (renting_confidence_interval x) <= x
       /\ x <= snd (renting_confidence_interval x))%Q) /\
  (fst (airbnb_confidence_interval 100) == 59.8
   /\ snd (airbnb_confidence_interval 100) == 140.2)%Q /\
  (fst (airbnb_confidence_interval 200) == 146.93
   /\ snd (airbnb_confidence_interval 200) == 253.07)%Q.
Proof.
  split; [|split; split; reflexivity].
  intros x. repeat split.
  - unfold airbnb_confidence_interval.
    destruct (Qlt_le_dec x 102) as [H1|H1]; [eexists; split; [reflexivity|tauto]|].
    destruct (Qlt_le_dec x 151) as [H2|H2]; [eexists; split; [reflexivity|tauto]|].
    destruct (Qlt_le_dec x 239) as [H3|H3]; eexists; (split; [reflexivity|tauto]).
  - unfold renting_confidence_interval.
    destruct (Qlt_le_dec x 560.17) as [H1|H1]; [eexists; split; [reflexivity|tauto]|].
    destruct (Qlt_le_dec x 1379.23) as [H2|H2]; [eexists; split; [reflexivity|tauto]|].
    destruct (Qlt_le_dec x 2025.77) as [H3|H3]; eexists; (split; [reflexivity|tauto]).
  - unfold airbnb_confidence_interval.
    repeat destruct (Qlt_le_dec _ _); simpl; apply interval_contains; discriminate.
  - unfold airbnb_confidence_interval.
    repeat destruct (Qlt_le_dec _ _); simpl; apply interval_contains; discriminate.
  - unfold renting_confidence_interval.
    repeat destruct (Qlt_le_dec _ _); simpl; apply interval_contains; discriminate.
  - unfold renting_confidence_interval.
    repeat destruct (Qlt_le_dec _ _); simpl; apply interval_contains; discriminate.
Qed.

(** ** Nightly price from the raw model output *)

Section NightlyPrice.
Local Open Scope R_scope.








End NightlyPrice.

(** ** The error monad *)

Lemma Ok_inj {A} (a b : A) : Ok a = Ok b -> a = b.
Proof. congruence. Qed.

Lemma mapM_Ok {A B} (f : A -> result B) (g : A -> B) (l : list A) :
  Forall (fun x => f x = Ok (g x)) l -> mapM f l = Ok (g <$> l).
Proof.
  induction 1 as [|x l Hx _ IH]; [reflexivity|].
  cbn. rewrite Hx. cbn. rewrite IH. reflexivity.
Qed.

(** ** The feature dict *)

Section Feat.
Implicit Types (feat : gmap string pyval) (c : string) (v : pyval).

Lemma foldl_insert_zero_lookup (features : list string) feat c :
  foldl (fun feat name => <[name := PyInt 0]> feat) feat features !! c =
  if decide (c ∈ features) then Some (PyInt 0) else feat !! c.
Proof.
  revert feat. induction features as [|name features IH]; intros feat; simpl.
  - reflexivity.
  - rewrite IH.
    destruct (decide (c ∈ features)) as [Hin|Hnin];
      destruct (decide (c ∈ name :: features)) as [Hin'|Hnin'].
    + reflexivity.
    + exfalso. apply Hnin'. by right.
    + apply elem_of_cons in Hin' as [->|Hin']; [|contradiction].
      apply lookup_insert_eq.
    + apply lookup_insert_ne. intros ->. apply Hnin'. by left.
Qed.

Lemma feat_init_lookup (features : list string) c :
  feat_init features !! c =
  if decide (c ∈ features) then Some (PyInt 0) else None.
Proof.
  unfold feat_init. rewrite foldl_insert_zero_lookup.
  by rewrite lookup_empty.
Qed.

Lemma feat_mark_is_Some col v feat c :
  is_Some (feat_mark col v feat !! c) <-> is_Some (feat !! c).
Proof.
  unfold feat_mark. destruct col as [c'|]; [|reflexivity].
  case_decide as Hc'; [|reflexivity].
  rewrite lookup_insert_is_Some. split.
  - intros [<-|[_ ?]]; assumption.
  - intros ?. destruct (decide (c' = c)); [by left|by right].
Qed.

Lemma feat_mark_lookup_ne col v feat c :
  col <> Some c -> feat_mark col v feat !! c = feat !! c.
Proof.
  intros Hne. unfold feat_mark. destruct col as [c'|]; [|reflexivity].
  case_decide; [|reflexivity].
  apply lookup_insert_ne. congruence.
Qed.

Lemma feat_mark_lookup_eq v feat c :
  is_Some (feat !! c) -> feat_mark (Some c) v feat !! c = Some v.
Proof.
  intros Hc. unfold feat_mark. rewrite decide_True by assumption.
  apply lookup_insert_eq.
Qed.

Lemma feat_frame_Ok (features : list string) feat :
  (forall c, c ∈ features -> is_Some (feat !! c)) ->
  feat_frame features feat = Ok ((fun c => (c, feat !!! c)) <$> features).
Proof.
  intros Hdom. unfold feat_frame.
  rewrite (mapM_Ok _ (fun c => feat !!! c)).
  - cbn. f_equal. induction features as [|c features IH]; [reflexivity|].
    cbn. f_equal. apply IH. intros c' Hc'. apply Hdom. by right.
  - apply Forall_forall. intros c Hc. unfold feat_getitem.
    destruct (Hdom c Hc) as [v Hv].
    rewrite (lookup_total_correct _ _ _ Hv), Hv. reflexivity.
Qed.

End Feat.

(** ** Data frames *)

Section Frames.
Implicit Types (df : DataFrame) (c : string) (v : pyval).

Lemma df_cells_nonempty c df : df_cells c df <> [] <-> c ∈ df_columns df.
Proof.
  unfold df_cells, df_columns.
  induction df as [|[c' x] df IH]; simpl.
  - split; [congruence|]. intros []%elem_of_nil.
  - destruct (String.eqb_spec c' c) as [->|Hne]; simpl.
    + split; [intros _; by left|congruence].
    + rewrite IH. split; [by right|].
      intros [?|?]%elem_of_cons; [congruence|assumption].
Qed.

Lemma df_contains_spec c df : df_contains c df = true <-> c ∈ df_columns df.
Proof. unfold df_contains. apply bool_decide_eq_true. Qed.

Lemma df_cells_app c df df' :
  df_cells c (df ++ df') = df_cells c df ++ df_cells c df'.
Proof. unfold df_cells. by rewrite List.filter_app, fmap_app. Qed.

Lemma df_cells_absent c df : c ∉ df_columns df -> df_cells c df = [].
Proof.
  intros Hc. destruct (df_cells c df) eqn:E; [reflexivity|].
  exfalso. apply Hc, df_cells_nonempty. congruence.
Qed.

Lemma df_cells_relabel_eq c v df :
  Forall (eq v)
    (df_cells c ((fun col => if String.eqb col.1 c then (col.1, v) else col) <$> df))
  /\ length (df_cells c ((fun col => if String.eqb col.1 c then (col.1, v) else col) <$> df))
     = length (df_cells c df).
Proof.
  unfold df_cells. induction df as [|[c' x] df [IH1 IH2]]; simpl.
  - split; [constructor|reflexivity].
  - destruct (String.eqb_spec c' c) as [->|Hne]; simpl.
    + rewrite String.eqb_refl. simpl. split; [by constructor|by f_equal].
    + destruct (String.eqb_spec c' c); [contradiction|]. by split.
Qed.

Lemma df_cells_relabel_ne c c' v df :
  c <> c' ->
  df_cells c' ((fun col => if String.eqb col.1 c then (col.1, v) else col) <$> df)
  = df_cells c' df.
Proof.
  intros Hne. unfold df_cells. induction df as [|[c0 x] df IH]; simpl.
  - reflexivity.
  - destruct (String.eqb_spec c0 c) as [->|Hne0]; simpl.
    + destruct (String.eqb_spec c c'); [contradiction|]. exact IH.
    + destruct (String.eqb_spec c0 c'); simpl; [f_equal|]; exact IH.
Qed.

(** After [df[c] = v] the column [c] is there and holds [v]. *)
Lemma df_setitem_eq c v df : column_is c v (df_setitem c v df).
Proof.
  unfold column_is, df_setitem.
  destruct (df_contains c df) eqn:Hc.
  - destruct (df_cells_relabel_eq c v df) as [Hall Hlen]. split; [|exact Hall].
    apply df_contains_spec, df_cells_nonempty in Hc.
    intros E. rewrite E in Hlen. simpl in Hlen.
    destruct (df_cells c df); [congruence|discriminate].
  - assert (c ∉ df_columns df) as Hnin.
    { intros Hin%df_contains_spec. congruence. }
    rewrite df_cells_app, (df_cells_absent _ _ Hnin).
    unfold df_cells. simpl. rewrite String.eqb_refl. simpl.
    split; [congruence|by repeat constructor].
Qed.

(** [df[c] = v] leaves every other column as it was. *)
Lemma df_setitem_ne c c' v df :
  c <> c' -> df_cells c' (df_setitem c v df) = df_cells c' df.
Proof.
  intros Hne. unfold df_setitem. destruct (df_contains c df).
  - by apply df_cells_relabel_ne.
  - rewrite df_cells_app. unfold df_cells at 2. simpl.
    destruct (String.eqb_spec c c'); [contradiction|]. simpl.
    by rewrite app_nil_r.
Qed.

Lemma df_setitem_columns c v df :
  c ∈ df_columns df -> df_columns (df_setitem c v df) = df_columns df.
Proof.
  intros Hc. unfold df_setitem.
  apply df_contains_spec in Hc. rewrite Hc.
  unfold df_columns. rewrite <- list_fmap_compose.
  apply list_fmap_ext. intros _ [c0 x] _. simpl.
  by destruct (String.eqb c0 c).
Qed.

Lemma df_setitem_preserves c c' v df :
  c' ∈ df_columns df -> c' ∈ df_columns (df_setitem c v df).
Proof.
  intros Hc'. destruct (decide (c = c')) as [->|Hne].
  - apply df_cells_nonempty, df_setitem_eq.
  - apply df_cells_nonempty. rewrite df_setitem_ne by assumption.
    by apply df_cells_nonempty.
Qed.

(** The cells of a frame built from a function of the label. *)
Lemma df_cells_fmap (g : string -> pyval) (features : list string) c :
  Forall (eq (g c)) (df_cells c ((fun c => (c, g c)) <$> features)).
Proof.
  unfold df_cells. induction features as [|c' features IH]; simpl.
  - constructor.
  - destruct (String.eqb_spec c' c) as [->|Hne]; simpl; [by constructor|exact IH].
Qed.

Lemma df_columns_fmap (g : string -> pyval) (features : list string) :
  df_columns ((fun c => (c, g c)) <$> features) = features.
Proof.
  unfold df_columns. rewrite <- list_fmap_compose.
  rewrite <- (list_fmap_id features) at 2.
  apply list_fmap_ext. by intros.
Qed.

End Frames.

(** ** Frames built from the feature dict *)

Section FrameOfFeat.
Implicit Types (feat : gmap string pyval) (c : string) (v : pyval).

Lemma frame_column_values (features : list string) feat c v :
  feat !! c = Some v ->
  Forall (eq v) (df_cells c ((fun c => (c, feat !!! c)) <$> features)).
Proof.
  intros Hv. rewrite <- (lookup_total_correct _ _ _ Hv).
  apply (df_cells_fmap (fun c => feat !!! c)).
Qed.

Lemma frame_column_is (features : list string) feat c v :
  c ∈ features -> feat !! c = Some v ->
  column_is c v ((fun c => (c, feat !!! c)) <$> features).
Proof.
  intros Hc Hv. split; [|by apply frame_column_values].
  apply df_cells_nonempty.
  by rewrite (df_columns_fmap (fun c => feat !!! c)).
Qed.

Lemma frame_single_cell (g : string -> pyval) (features : list string) c :
  NoDup features -> c ∈ features ->
  df_cells c ((fun c => (c, g c)) <$> features) = [g c].
Proof.
  intros Hnd Hc. unfold df_cells.
  induction Hnd as [|c' features Hnin Hnd IH]; [by apply elem_of_nil in Hc|].
  simpl. destruct (String.eqb_spec c' c) as [->|Hne]; simpl.
  - f_equal. apply (df_cells_absent c ((fun c => (c, g c)) <$> features)).
    by rewrite df_columns_fmap.
  - apply IH. apply elem_of_cons in Hc as [->|Hc]; [contradiction|assumption].
Qed.

End FrameOfFeat.

(** ** The arrondissement table *)

Lemma dict_get_out_of_range (z : Z) :
  (z < 1 \/ 20 < z)%Z -> dict_get z ARRONDISSEMENT_MAP = None.
Proof.
  intros Hz. unfold ARRONDISSEMENT_MAP. simpl.
  repeat (case_decide; [lia|]). reflexivity.
Qed.

Lemma dict_get_column (z : Z) (c : string) :
  dict_get z ARRONDISSEMENT_MAP = Some c -> c ∈ ARRONDISSEMENT_COLUMNS.
Proof.
  unfold ARRONDISSEMENT_MAP. simpl.
  repeat (case_decide; [intros [= <-]; compute_done|]). discriminate.
Qed.

Lemma arrondissement_columns_rent :
  Forall (fun c => c ∈ rent_features) ARRONDISSEMENT_COLUMNS.
Proof. compute_done. Qed.

Lemma rent_features_NoDup : NoDup rent_features.
Proof. compute_done. Qed.

(** ** The monthly-rent builder *)

Section Renting.
Implicit Types (user_profile : gmap string pyval).

Lemma renting_feat_dom user_profile feat c :
  renting_feat user_profile = Ok feat ->
  c ∈ rent_features -> is_Some (feat !! c).
Proof.
  unfold renting_feat. intros Hfeat Hc.
  destruct (py_int _) as [z|e]; [|discriminate].
  cbn [mbind result_bind] in Hfeat.
  apply Ok_inj in Hfeat. rewrite <- Hfeat. clear Hfeat.
  do 3 (apply lookup_insert_is_Some'; right).
  apply feat_mark_is_Some. rewrite feat_init_lookup.
  by rewrite decide_True.
Qed.

Lemma build_renting_Ok user_profile z :
  py_int (arrondissement_arg user_profile) = Ok z ->
  exists feat,
    renting_feat user_profile = Ok feat /\
    build_renting_feature_df user_profile
    = Ok ((fun c => (c, feat !!! c)) <$> rent_features).
Proof.
  intros Hz. unfold build_renting_feature_df.
  destruct (renting_feat user_profile) as [feat|e] eqn:Hfeat.
  - exists feat. split; [reflexivity|]. cbn [mbind result_bind].
    apply feat_frame_Ok. intros c. by apply (renting_feat_dom user_profile).
  - exfalso. unfold renting_feat, arrondissement_arg in *.
    rewrite Hz in Hfeat. discriminate.
Qed.

Lemma build_renting_Raise user_profile e :
  py_int (arrondissement_arg user_profile) = Raise e ->
  build_renting_feature_df user_profile = Raise e.
Proof.
  intros He. unfold build_renting_feature_df, renting_feat.
  unfold arrondissement_arg in He. by rewrite He.
Qed.

Lemma renting_feat_rooms user_profile feat :
  renting_feat user_profile = Ok feat ->
  feat !! "Nombre de pièces principales"
  = Some (default PyNone (user_profile !! "Number of rooms renting")).
Proof.
  unfold renting_feat. intros Hfeat.
  destruct (py_int _) as [z|e]; [|discriminate].
  cbn [mbind result_bind] in Hfeat.
  apply Ok_inj in Hfeat. rewrite <- Hfeat. clear Hfeat.
  rewrite lookup_insert_ne by discriminate.
  rewrite lookup_insert_ne by discriminate.
  apply lookup_insert_eq.
Qed.

Lemma renting_feat_arrondissement user_profile z feat c :
  py_int (arrondissement_arg user_profile) = Ok z ->
  renting_feat user_profile = Ok feat ->
  c ∈ ARRONDISSEMENT_COLUMNS ->
  feat !! c =
  Some (PyInt (if decide (dict_get z ARRONDISSEMENT_MAP = Some c) then 1 else 0)).
Proof.
  unfold renting_feat, arrondissement_arg. intros Hz Hfeat Hc.
  rewrite Hz in Hfeat. cbn [mbind result_bind] in Hfeat.
  apply Ok_inj in Hfeat. rewrite <- Hfeat. clear Hfeat.
  assert (c ∈ rent_features) as Hin.
  { by apply (proj1 (Forall_forall _ _) arrondissement_columns_rent). }
  assert (c <> "Type de locationom_non meublé"
          /\ c <> "Type de locationom_meublé"
          /\ c <> "Nombre de pièces principales") as (H1 & H2 & H3).
  { repeat split; intros ->; revert Hc; compute_done. }
  rewrite !lookup_insert_ne by congruence.
  destruct (decide (dict_get z ARRONDISSEMENT_MAP = Some c)) as [Hcol|Hcol].
  - rewrite Hcol. apply feat_mark_lookup_eq.
    rewrite feat_init_lookup. by rewrite decide_True.
  - rewrite feat_mark_lookup_ne by assumption.
    rewrite feat_init_lookup. by rewrite decide_True.
Qed.

End Renting.

(** C5, as stated, fails: the hardcoded schema has 23 columns, not 22,
    and so has the frame built for the empty profile. *)
Lemma rent_schema_not_22 :
  length rent_features <> 22 /\
  exists df : DataFrame,
    build_renting_feature_df ∅ = Ok df /\ length (df_columns df) = 23.
Proof.
  split; [discriminate|].
  eexists. split; vm_compute; reflexivity.
Qed.

(** C5, amended.  The monthly-rent builder has a fixed schema of 23
    columns: the room count, the twenty arrondissement columns, then the
    furnished and unfurnished columns; whenever the builder returns, its
    frame has exactly these columns in this order (it raises only where
    [int] rejects the arrondissement). *)
Theorem rent_schema_fixed :
  length rent_features = 23 /\
  (exists arrondissements : list string,
      rent_features =
        "Nombre de pièces principales" :: arrondissements
          ++ ["Type de locationom_meublé"; "Type de locationom_non meublé"]
      /\ arrondissements ≡ₚ ARRONDISSEMENT_COLUMNS) /\
  forall user_profile : gmap string pyval,
    match build_renting_feature_df user_profile with
    | Ok df => df_columns df = rent_features /\ length (df_columns df) = 23
    | Raise e => py_int (arrondissement_arg user_profile) = Raise e
    end.
Proof.
  split; [reflexivity|]. split.
  - exists (take 20 (drop 1 rent_features)). split; [reflexivity|]. compute_done.
  - intros user_profile.
    destruct (py_int (arrondissement_arg user_profile)) as [z|e] eqn:Hz.
    + destruct (build_renting_Ok _ _ Hz) as (feat & _ & ->).
      rewrite (df_columns_fmap (fun c => feat !!! c)). by split.
    + by rewrite (build_renting_Raise _ _ Hz).
Qed.

(** C8.  The room-count column of the monthly-rent frame is the value the
    profile holds under "Number of rooms renting", copied as it is: an
    integer [k] gives [k], and a profile without the field gives [None];
    no default is put in its place. *)
Theorem rent_room_count_copied (user_profile : gmap string pyval) (df : DataFrame) :
  build_renting_feature_df user_profile = Ok df ->
  df_cells "Nombre de pièces principales" df
  = [default PyNone (user_profile !! "Number of rooms renting")] /\
  (forall k : Z,
      user_profile !! "Number of rooms renting" = Some (PyInt k) ->
      df_cells "Nombre de pièces principales" df = [PyInt k]) /\
  (user_profile !! "Number of rooms renting" = None ->
   df_cells "Nombre de pièces principales" df = [PyNone]).
Proof.
  intros Hdf.
  assert (df_cells "Nombre de pièces principales" df
          = [default PyNone (user_profile !! "Number of rooms renting")]) as Hcell.
  { destruct (py_int (arrondissement_arg user_profile)) as [z|e] eqn:Hz.
    - destruct (build_renting_Ok _ _ Hz) as (feat & Hfeat & Hbuild).
      rewrite Hbuild in Hdf. apply Ok_inj in Hdf. subst df.
      rewrite (frame_single_cell (fun c => feat !!! c)).
      + f_equal. apply lookup_total_correct.
        by apply renting_feat_rooms.
      + apply rent_features_NoDup.
      + compute_done.
    - rewrite (build_renting_Raise _ _ Hz) in Hdf. discriminate. }
  split; [exact Hcell|]. split.
  - intros k Hk. by rewrite Hcell, Hk.
  - intros Hk. by rewrite Hcell, Hk.
Qed.

Lemma rent_room_count_copied_witness :
  exists df : DataFrame,
    build_renting_feature_df
      (<["Number of rooms renting" := PyInt 3]> (<["arrondissement" := PyInt 5]> ∅))
    = Ok df /\
    df_cells "Nombre de pièces principales" df = [PyInt 3].
Proof.
  eexists. split.
  - vm_compute. reflexivity.
  - refine (proj1 (proj2 (rent_room_count_copied
             (<["Number of rooms renting" := PyInt 3]> (<["arrondissement" := PyInt 5]> ∅))
             _ _)) 3%Z _).
    + vm_compute. reflexivity.
    + vm_compute. reflexivity.
Defined.

(** ** The amenity catalog *)

Section FoldInsert.
Context {V : Type} (key : string -> string) (val : string -> V).

Lemma foldl_insert_lookup (cols : list string) (m : gmap string V) k v :
  foldl (fun m c => <[key c := val c]> m) m cols !! k = Some v ->
  (exists c, c ∈ cols /\ key c = k /\ val c = v) \/ m !! k = Some v.
Proof.
  revert m. induction cols as [|c cols IH]; intros m; simpl; [by right|].
  intros [(c' & Hc' & Hk & Hv)|Hm]%IH.
  - left. exists c'. split; [by right|done].
  - destruct (decide (key c = k)) as [Hk|Hk].
    + rewrite <- Hk, lookup_insert_eq in Hm. injection Hm as Hv.
      left. exists c. split; [by left|done].
    + rewrite lookup_insert_ne in Hm by assumption. by right.
Qed.

Lemma foldl_insert_list_to_map (cols : list string) :
  foldl (fun (m : gmap string V) c => <[key c := val c]> m) ∅ cols
  = (list_to_map ((fun c => (key c, val c)) <$> reverse cols) : gmap string V).
Proof.
  rewrite <- (reverse_involutive cols) at 1.
  generalize (reverse cols) as l. intros l.
  induction l as [|c l IH]; [reflexivity|].
  rewrite reverse_cons, foldl_app. simpl. by rewrite IH.
Qed.

Lemma foldl_insert_size (cols : list string) :
  NoDup (key <$> cols) ->
  size (foldl (fun (m : gmap string V) c => <[key c := val c]> m) ∅ cols) = length cols.
Proof.
  intros Hnd. rewrite foldl_insert_list_to_map.
  rewrite map_size_list_to_map.
  - by rewrite length_fmap, length_reverse.
  - rewrite <- list_fmap_compose. rewrite fmap_reverse.
    by rewrite reverse_Permutation.
Qed.

Lemma foldl_insert_lookup_NoDup (cols : list string) k v :
  NoDup (key <$> cols) ->
  foldl (fun (m : gmap string V) c => <[key c := val c]> m) ∅ cols !! k = Some v <->
  exists c, c ∈ cols /\ key c = k /\ val c = v.
Proof.
  intros Hnd. rewrite foldl_insert_list_to_map.
  rewrite <- elem_of_list_to_map.
  - rewrite list_elem_of_fmap. split.
    + intros (c & Heq & Hc). rewrite elem_of_reverse in Hc.
      injection Heq as -> ->. exists c. by repeat split.
    + intros (c & Hc & <- & <-). exists c. split; [done|].
      by apply elem_of_reverse.
  - rewrite <- list_fmap_compose. rewrite fmap_reverse.
    by rewrite reverse_Permutation.
Qed.

End FoldInsert.

Lemma label_to_col_entry (feature_list : list string) (label c : string) :
  (build_amenity_maps feature_list).1 !! label = Some c ->
  c ∈ feature_list /\ String.prefix "amenity__" c = true
  /\ clean_amenity_name c = label.
Proof.
  unfold build_amenity_maps. simpl.
  intros [(c' & Hc' & Hk & Hv)|Hm]%(foldl_insert_lookup clean_amenity_name (fun c => c)).
  - subst c'.
    apply list_elem_of_In, List.filter_In in Hc' as [Hin Hp].
    by apply list_elem_of_In in Hin.
  - by rewrite lookup_empty in Hm.
Qed.

(** C7, as stated, fails: two amenity columns that differ by a trailing
    underscore get the same label, so the label map has one entry for two
    columns and sends the label of the first column to the second. *)
Lemma amenity_maps_collide :
  length (List.filter (String.prefix "amenity__")
                      ["amenity__wifi"; "amenity__wifi_"]) = 2 /\
  size (build_amenity_maps ["amenity__wifi"; "amenity__wifi_"]).1 = 1 /\
  (build_amenity_maps ["amenity__wifi"; "amenity__wifi_"]).2 !! "amenity__wifi"
  = Some "Wifi" /\
  (build_amenity_maps ["amenity__wifi"; "amenity__wifi_"]).1 !! "Wifi"
  = Some "amenity__wifi_".
Proof. repeat split; vm_compute; reflexivity. Qed.

(** C7, amended.  For a schema whose N amenity-prefixed columns derive N
    pairwise distinct labels, both maps have exactly N entries,
    [col_to_label] sends every amenity column to its derived label,
    [label_to_col] sends that label back to the column, and the two maps
    are inverse to each other. *)
Theorem amenity_maps_bijection (feature_list : list string)
    (Hdistinct : NoDup (clean_amenity_name
                          <$> List.filter (String.prefix "amenity__") feature_list)) :
  let amenity_cols := List.filter (String.prefix "amenity__") feature_list in
  let label_to_col := (build_amenity_maps feature_list).1 in
  let col_to_label := (build_amenity_maps feature_list).2 in
  size label_to_col = length amenity_cols /\
  size col_to_label = length amenity_cols /\
  (forall c, c ∈ amenity_cols ->
             col_to_label !! c = Some (clean_amenity_name c) /\
             label_to_col !! clean_amenity_name c = Some c) /\
  (forall label c,
      label_to_col !! label = Some c <-> col_to_label !! c = Some label).
Proof.
  intros amenity_cols label_to_col col_to_label.
  assert (NoDup ((fun c : string => c) <$> amenity_cols)) as Hcols.
  { rewrite list_fmap_id. by apply (NoDup_fmap_1 clean_amenity_name). }
  assert (forall label c, label_to_col !! label = Some c <->
            exists c', c' ∈ amenity_cols /\ clean_amenity_name c' = label /\ c' = c)
    as Hl2c.
  { intros label c.
    apply (foldl_insert_lookup_NoDup clean_amenity_name (fun c => c)).
    exact Hdistinct. }
  assert (forall c label, col_to_label !! c = Some label <->
            exists c', c' ∈ amenity_cols /\ c' = c /\ clean_amenity_name c' = label)
    as Hc2l.
  { intros c label.
    apply (foldl_insert_lookup_NoDup (fun c => c) clean_amenity_name).
    exact Hcols. }
  split; [|split; [|split]].
  - apply (foldl_insert_size clean_amenity_name (fun c => c)). exact Hdistinct.
  - apply (foldl_insert_size (fun c => c) clean_amenity_name). exact Hcols.
  - intros c Hc. split.
    + apply Hc2l. by exists c.
    + apply Hl2c. by exists c.
  - intros label c. rewrite Hl2c, Hc2l. split.
    + intros (c' & Hc' & Hlabel & ->). by exists c.
    + intros (c' & Hc' & -> & Hlabel). by exists c.
Qed.

Lemma amenity_maps_bijection_witness :
  size (build_amenity_maps ["bedrooms"; "amenity__wifi"; "amenity__hot_tub"]).1 = 2
  /\ (build_amenity_maps ["bedrooms"; "amenity__wifi"; "amenity__hot_tub"]).1
       !! "Hot Tub" = Some "amenity__hot_tub".
Proof.
  assert (NoDup (clean_amenity_name
                   <$> List.filter (String.prefix "amenity__")
                         ["bedrooms"; "amenity__wifi"; "amenity__hot_tub"]))
    as Hdistinct.
  { apply (bool_decide_unpack _). vm_compute. exact I. }
  destruct (amenity_maps_bijection _ Hdistinct) as (Hsize & _ & Hcols & _).
  split; [exact Hsize|].
  apply (Hcols "amenity__hot_tub").
  apply (bool_decide_unpack _). vm_compute. exact I.
Defined.

(** ** The nightly builder *)

Lemma arrondissement_columns_plain :
  Forall (fun c =>
            String.prefix "amenity__" c = false
            /\ Forall (fun rt => c <> "room_" +:+ rt) room_types
            /\ c ∉ ["host_is_superhost"; "host_listings_count";
                    "host_identity_verified"; "bathrooms_text"; "bedrooms"])
         ARRONDISSEMENT_COLUMNS.
Proof. compute_done. Qed.

Section Nightly.
Variable airbnb_features : list string.
Implicit Types (user_profile feat : gmap string pyval) (c : string).

Lemma room_loop_is_Some room_type feat c :
  is_Some (room_loop room_type feat !! c) <-> is_Some (feat !! c).
Proof.
  unfold room_loop. generalize room_types as rts. intros rts. revert feat.
  induction rts as [|rt rts IH]; intros feat; cbn [foldl]; [reflexivity|].
  rewrite IH. apply feat_mark_is_Some.
Qed.

Lemma room_loop_lookup_ne room_type feat c :
  Forall (fun rt => c <> "room_" +:+ rt) room_types ->
  room_loop room_type feat !! c = feat !! c.
Proof.
  unfold room_loop. generalize room_types as rts. intros rts. revert feat.
  induction rts as [|rt rts IH]; intros feat Hc; cbn [foldl]; [reflexivity|].
  apply Forall_cons in Hc as [Hrt Hrts].
  rewrite IH by assumption. apply feat_mark_lookup_ne. congruence.
Qed.

Lemma amenity_loop_is_Some labels feat feat' c :
  amenity_loop airbnb_features labels feat = Ok feat' ->
  is_Some (feat' !! c) <-> is_Some (feat !! c).
Proof.
  revert feat. induction labels as [|label labels IH]; intros feat; cbn [amenity_loop].
  - intros Heq%Ok_inj. by subst.
  - destruct (label_get _ label) as [model_col|e]; [|discriminate].
    cbn [mbind result_bind]. intros Hloop%IH.
    rewrite Hloop. apply feat_mark_is_Some.
Qed.

Lemma amenity_loop_lookup_ne labels feat feat' c :
  amenity_loop airbnb_features labels feat = Ok feat' ->
  String.prefix "amenity__" c = false ->
  feat' !! c = feat !! c.
Proof.
  intros Hloop Hc. revert feat Hloop.
  induction labels as [|label labels IH]; intros feat; cbn [amenity_loop].
  - intros Heq%Ok_inj. by subst.
  - destruct (label_get _ label) as [model_col|e] eqn:Hget; [|discriminate].
    cbn [mbind result_bind]. intros Hloop%IH.
    rewrite Hloop. apply feat_mark_lookup_ne. intros ->.
    destruct label; simpl in Hget; try discriminate; apply Ok_inj in Hget.
    apply label_to_col_entry in Hget as (_ & Hp & _). congruence.
Qed.

Lemma amenity_loop_Ok labels feat :
  forallb is_str labels = true ->
  is_Ok (amenity_loop airbnb_features labels feat).
Proof.
  revert feat. induction labels as [|label labels IH]; intros feat; cbn [amenity_loop].
  - intros _. by eexists.
  - intros [Hl Hls]%andb_true_iff.
    destruct label; try discriminate. simpl. by apply IH.
Qed.

Lemma int_field_py_int user_profile k d :
  int_field user_profile k = true ->
  is_Ok (py_int (default (PyInt d) (user_profile !! k))).
Proof.
  unfold int_field.
  destruct (user_profile !! k) as [[]|]; try discriminate; by eexists.
Qed.

(** What a returning [airbnb_feat] went through. *)
Lemma airbnb_feat_inv user_profile feat :
  airbnb_feat airbnb_features user_profile = Ok feat ->
  exists (sh li iv ba be : pyval) (z : Z) (room_type : pyval) (labels : list pyval),
    py_int (arrondissement_arg user_profile) = Ok z /\
    amenity_loop airbnb_features labels
      (room_loop room_type
         (feat_mark (dict_get z ARRONDISSEMENT_MAP) (PyInt 1)
            (<["bedrooms" := be]>
               (<["bathrooms_text" := ba]>
                  (<["host_identity_verified" := iv]>
                     (<["host_listings_count" := li]>
                        (<["host_is_superhost" := sh]>
                           (feat_init airbnb_features)))))))) = Ok feat.
Proof.
  unfold airbnb_feat, arrondissement_arg. intros Hfeat.
  destruct (py_int (default (PyInt 0) _)) as [listings|]; [|discriminate].
  cbn [mbind result_bind] in Hfeat.
  destruct (py_int (default (PyInt 1) (user_profile !! "bathrooms")))
    as [bathrooms|]; [|discriminate].
  cbn [mbind result_bind] in Hfeat.
  destruct (py_int (default (PyInt 1) (user_profile !! "bedrooms")))
    as [bedrooms|]; [|discriminate].
  cbn [mbind result_bind] in Hfeat.
  destruct (py_int (default (PyInt 1) (user_profile !! "arrondissement")))
    as [z|]; [|discriminate].
  cbn [mbind result_bind] in Hfeat.
  destruct (py_iter _) as [labels|]; [|discriminate].
  cbn [mbind result_bind] in Hfeat.
  do 8 eexists. split; [reflexivity|exact Hfeat].
Qed.

Lemma airbnb_feat_dom user_profile feat c :
  airbnb_feat airbnb_features user_profile = Ok feat ->
  c ∈ airbnb_features -> is_Some (feat !! c).
Proof.
  intros (sh & li & iv & ba & be & z & rt & labels & _ & Hloop)%airbnb_feat_inv Hc.
  apply (amenity_loop_is_Some _ _ _ c) in Hloop. apply Hloop.
  apply room_loop_is_Some, feat_mark_is_Some.
  do 5 (apply lookup_insert_is_Some'; right).
  rewrite feat_init_lookup. by rewrite decide_True.
Qed.

Lemma airbnb_feat_arrondissement user_profile z feat c :
  py_int (arrondissement_arg user_profile) = Ok z ->
  airbnb_feat airbnb_features user_profile = Ok feat ->
  c ∈ ARRONDISSEMENT_COLUMNS -> c ∈ airbnb_features ->
  feat !! c =
  Some (PyInt (if decide (dict_get z ARRONDISSEMENT_MAP = Some c) then 1 else 0)).
Proof.
  intros Hz (sh & li & iv & ba & be & z' & rt & labels & Hz' & Hloop)%airbnb_feat_inv
         Hc Hin.
  rewrite Hz in Hz'. apply Ok_inj in Hz'. subst z'.
  destruct (proj1 (Forall_forall _ _) arrondissement_columns_plain c Hc)
    as (Hp & Hroom & Hscalar).
  rewrite (amenity_loop_lookup_ne _ _ _ _ Hloop Hp).
  rewrite (room_loop_lookup_ne _ _ _ Hroom).
  assert (is_Some ((<["bedrooms" := be]>
               (<["bathrooms_text" := ba]>
                  (<["host_identity_verified" := iv]>
                     (<["host_listings_count" := li]>
                        (<["host_is_superhost" := sh]>
                           (feat_init airbnb_features)))))) !! c)) as Hsome.
  { do 5 (apply lookup_insert_is_Some'; right).
    rewrite feat_init_lookup. by rewrite decide_True. }
  destruct (decide (dict_get z ARRONDISSEMENT_MAP = Some c)) as [Hcol|Hcol].
  - rewrite Hcol. by apply feat_mark_lookup_eq.
  - rewrite feat_mark_lookup_ne by assumption.
    rewrite !lookup_insert_ne by (intros <-; apply Hscalar; compute_done).
    rewrite feat_init_lookup. by rewrite decide_True.
Qed.

Lemma build_airbnb_Ok user_profile feat :
  airbnb_feat airbnb_features user_profile = Ok feat ->
  build_airbnb_feature_df airbnb_features user_profile
  = Ok ((fun c => (c, feat !!! c)) <$> airbnb_features).
Proof.
  intros Hfeat. unfold build_airbnb_feature_df. rewrite Hfeat.
  cbn [mbind result_bind]. apply feat_frame_Ok.
  intros c. by apply (airbnb_feat_dom user_profile).
Qed.

(** A typed profile is encoded without error. *)
Lemma airbnb_feat_typed user_profile :
  typed_profile user_profile = true ->
  is_Ok (airbnb_feat airbnb_features user_profile).
Proof.
  unfold typed_profile. rewrite !andb_true_iff.
  intros ((((Hli & Hba) & Hbe) & Har) & Ham).
  unfold airbnb_feat.
  destruct (int_field_py_int _ _ 0 Hli) as [li ->].
  destruct (int_field_py_int _ _ 1 Hba) as [ba ->].
  destruct (int_field_py_int _ _ 1 Hbe) as [be ->].
  destruct (int_field_py_int _ _ 1 Har) as [z ->].
  cbn [mbind result_bind].
  destruct (user_profile !! "amenities") as [[| | | | |labels]|];
    try discriminate.
  - destruct labels as [|label labels]; cbn [default py_or py_bool py_iter mbind result_bind].
    + by eexists.
    + by apply amenity_loop_Ok.
  - cbn [default py_or py_bool py_iter mbind result_bind]. by eexists.
Qed.

Lemma build_airbnb_typed user_profile :
  typed_profile user_profile = true ->
  exists feat,
    airbnb_feat airbnb_features user_profile = Ok feat /\
    build_airbnb_feature_df airbnb_features user_profile
    = Ok ((fun c => (c, feat !!! c)) <$> airbnb_features).
Proof.
  intros [feat Hfeat]%airbnb_feat_typed.
  exists feat. split; [exact Hfeat|by apply build_airbnb_Ok].
Qed.

End Nightly.

(** ** Arrondissement values outside the table *)

(** C9.  A profile whose arrondissement is an integer outside 1..20 is
    encoded without error by both builders, and every arrondissement
    column of the resulting frame holds 0.  (The nightly builder also
    passes the listing count, the bathrooms and the bedrooms to [int];
    the profile is typed as the data model has it.) *)
Theorem out_of_range_arrondissement (airbnb_features : list string)
    (user_profile : gmap string pyval) (z : Z) :
  user_profile !! "arrondissement" = Some (PyInt z) ->
  (z < 1 \/ 20 < z)%Z ->
  (exists df,
      build_renting_feature_df user_profile = Ok df /\
      forall c, c ∈ ARRONDISSEMENT_COLUMNS -> column_is c (PyInt 0) df) /\
  (typed_profile user_profile = true ->
   exists df,
     build_airbnb_feature_df airbnb_features user_profile = Ok df /\
     df_columns df = airbnb_features /\
     forall c, c ∈ ARRONDISSEMENT_COLUMNS -> Forall (eq (PyInt 0)) (df_cells c df)).
Proof.
  intros Harr Hz.
  assert (py_int (arrondissement_arg user_profile) = Ok z) as Hint.
  { unfold arrondissement_arg. by rewrite Harr. }
  pose proof (dict_get_out_of_range z Hz) as Hnone.
  split.
  - destruct (build_renting_Ok _ _ Hint) as (feat & Hfeat & Hbuild).
    eexists. split; [exact Hbuild|]. intros c Hc.
    apply frame_column_is.
    + by apply (proj1 (Forall_forall _ _) arrondissement_columns_rent).
    + rewrite (renting_feat_arrondissement _ _ _ _ Hint Hfeat Hc).
      rewrite Hnone. by rewrite decide_False.
  - intros Htyped.
    destruct (build_airbnb_typed airbnb_features _ Htyped) as (feat & Hfeat & Hbuild).
    eexists. split; [exact Hbuild|]. split.
    + apply (df_columns_fmap (fun c => feat !!! c)).
    + intros c Hc. destruct (decide (c ∈ airbnb_features)) as [Hin|Hnin].
      * apply frame_column_values.
        rewrite (airbnb_feat_arrondissement _ _ _ _ _ Hint Hfeat Hc Hin).
        rewrite Hnone. by rewrite decide_False.
      * rewrite df_cells_absent; [constructor|].
        by rewrite (df_columns_fmap (fun c => feat !!! c)).
Qed.

Lemma out_of_range_arrondissement_witness :
  (exists df,
      build_renting_feature_df far_profile = Ok df /\
      forall c, c ∈ ARRONDISSEMENT_COLUMNS -> column_is c (PyInt 0) df) /\
  (exists df,
      build_airbnb_feature_df sample_features far_profile = Ok df /\
      df_columns df = sample_features /\
      forall c, c ∈ ARRONDISSEMENT_COLUMNS -> Forall (eq (PyInt 0)) (df_cells c df)).
Proof.
  assert (far_profile !! "arrondissement" = Some (PyInt 25)) as Harr.
  { vm_compute. reflexivity. }
  assert (25 < 1 \/ 20 < 25)%Z as Hz by (right; lia).
  destruct (out_of_range_arrondissement sample_features far_profile 25 Harr Hz)
    as [Hrent Hnightly].
  split; [exact Hrent|]. apply Hnightly. vm_compute. reflexivity.
Defined.

(** ** Arrondissement values that [int] rejects *)

Lemma build_airbnb_arrondissement_Raise (airbnb_features : list string)
    (user_profile : gmap string pyval) (e : pyexc) :
  is_Ok (py_int (default (PyInt 0) (user_profile !! "host_listings_count"))) ->
  is_Ok (py_int (default (PyInt 1) (user_profile !! "bathrooms"))) ->
  is_Ok (py_int (default (PyInt 1) (user_profile !! "bedrooms"))) ->
  py_int (arrondissement_arg user_profile) = Raise e ->
  build_airbnb_feature_df airbnb_features user_profile = Raise e.
Proof.
  intros [li Hli] [ba Hba] [be Hbe] He.
  unfold build_airbnb_feature_df, airbnb_feat.
  unfold arrondissement_arg in He.
  rewrite Hli, Hba, Hbe, He. reflexivity.
Qed.

(** C10.  There is a profile, one whose arrondissement is the string
    "abc", for which [int] raises and with it both builders: neither
    returns the all-zero location encoding. *)
Theorem non_numeric_arrondissement_raises :
  exists user_profile : gmap string pyval,
    user_profile !! "arrondissement" = Some (PyStr "abc") /\
    py_int (PyStr "abc") = Raise ValueError /\
    build_renting_feature_df user_profile = Raise ValueError /\
    forall airbnb_features : list string,
      build_airbnb_feature_df airbnb_features user_profile = Raise ValueError.
Proof.
  exists (<["arrondissement" := PyStr "abc"]> ∅).
  split; [reflexivity|]. split; [reflexivity|]. split.
  - apply build_renting_Raise. reflexivity.
  - intros airbnb_features. apply build_airbnb_arrondissement_Raise.
    + by eexists.
    + by eexists.
    + by eexists.
    + reflexivity.
Qed.

(** ** Counterfactual frames *)

Section Counterfactual.
Implicit Types (df : DataFrame) (c : string) (cols : list string).

Lemma zero_present_cons c0 cols df :
  zero_present (c0 :: cols) df
  = zero_present cols
      (if df_contains c0 df then df_setitem c0 (PyInt 0) df else df).
Proof. reflexivity. Qed.

Lemma zero_all_cons c0 cols df :
  zero_all (c0 :: cols) df = zero_all cols (df_setitem c0 (PyInt 0) df).
Proof. reflexivity. Qed.

Lemma sweep_frame_eq base_df arr_col :
  sweep_frame base_df arr_col
  = if df_contains arr_col (zero_present ARRONDISSEMENT_COLUMNS base_df)
    then df_setitem arr_col (PyInt 1)
           (zero_present ARRONDISSEMENT_COLUMNS base_df)
    else zero_present ARRONDISSEMENT_COLUMNS base_df.
Proof. unfold sweep_frame, zero_present. cbv zeta. reflexivity. Qed.

Lemma median_frame_eq base_df median_col :
  median_frame base_df median_col
  = df_setitem median_col (PyInt 1) (zero_all ARRONDISSEMENT_COLUMNS base_df).
Proof. unfold median_frame, zero_all. cbv zeta. reflexivity. Qed.

Lemma zero_present_columns cols df :
  df_columns (zero_present cols df) = df_columns df.
Proof.
  unfold zero_present. revert df.
  induction cols as [|c0 cols IH]; intros df; cbn [foldl]; [reflexivity|].
  rewrite IH. destruct (df_contains c0 df) eqn:Hc0; [|reflexivity].
  by apply df_setitem_columns, df_contains_spec.
Qed.





Lemma column_is_present c v df : column_is c v df -> c ∈ df_columns df.
Proof. intros [Hne _]. by apply df_cells_nonempty. Qed.






End Counterfactual.

(** ** The arrondissement sweep *)

Lemma arrondissement_items :
  Forall (fun item : Z * string =>
            item.2 ∈ ARRONDISSEMENT_COLUMNS
            /\ is_Some (dict_get item.1 INSEE_MAP))
         ARRONDISSEMENT_MAP.
Proof.
  apply Forall_forall. intros [n col] Hitem. split.
  - apply list_elem_of_fmap. by exists (n, col).
  - revert Hitem. unfold ARRONDISSEMENT_MAP.
    rewrite !elem_of_cons, elem_of_nil.
    intros H. repeat (destruct H as [[= -> ->]|H]; [by eexists|]). destruct H.
Qed.



(** ** The price-impact KPIs *)

Section Impact.
Variable airbnb_features : list string.
Implicit Types (df : DataFrame) (c : string).







End Impact.



(** ** Stored predictions *)

Section Stored.
Variable airbnb_features : list string.
Variables model_airbnb_price model_cleaning_costs model_renting_price : Model.

(** What [run_computations_renting] stores. *)
Lemma run_computations_renting_stores user_data session_state df :
  build_renting_feature_df user_data = Ok df ->
  run_computations_renting model_renting_price user_data session_state
  = (<["user_renting_price_prediction" :=
         user_renting_price_prediction (model_renting_price df)]> session_state,
     Ok ()).
Proof. intros Hdf. unfold run_computations_renting. by rewrite Hdf. Qed.

(** What [run_computations_airbnb] stores under the nightly price, also
    when the cleaning-cost step raises. *)
Lemma run_computations_airbnb_stores user_data session_state df :
  build_airbnb_feature_df airbnb_features user_data = Ok df ->
  (run_computations_airbnb airbnb_features model_airbnb_price
     model_cleaning_costs user_data session_state).1
    !! "user_price_prediction"
  = Some (user_price_prediction (model_airbnb_price df)).
Proof.
  intros Hdf. unfold run_computations_airbnb. rewrite Hdf.
  destruct (df_select _ df ≫= _); cbn [fst].
  - rewrite lookup_insert_ne by discriminate. apply lookup_insert_eq.
  - apply lookup_insert_eq.
Qed.

End Stored.





(** * Further properties of the encoder *)

Section Encoder.
Variable airbnb_features : list string.
Implicit Types (user_profile feat : gmap string pyval) (c : string).

(** A returning [airbnb_feat], with the values it wrote. *)
Lemma airbnb_feat_steps user_profile feat :
  airbnb_feat airbnb_features user_profile = Ok feat ->
  exists (li ba be z : Z) (labels : list pyval),
    py_int (default (PyInt 0) (user_profile !! "host_listings_count")) = Ok li /\
    py_int (default (PyInt 1) (user_profile !! "bathrooms")) = Ok ba /\
    py_int (default (PyInt 1) (user_profile !! "bedrooms")) = Ok be /\
    py_int (arrondissement_arg user_profile) = Ok z /\
    py_iter (amenities_arg user_profile) = Ok labels /\
    amenity_loop airbnb_features labels
      (room_loop (default (PyStr "Entire home/apt") (user_profile !! "room_type"))
         (feat_mark (dict_get z ARRONDISSEMENT_MAP) (PyInt 1)
            (<["bedrooms" := PyInt be]>
               (<["bathrooms_text" := PyInt ba]>
                  (<["host_identity_verified" :=
                       PyInt (Z.b2z (py_bool (default (PyBool false)
                          (user_profile !! "host_identity_verified"))))]>
                     (<["host_listings_count" := PyInt li]>
                        (<["host_is_superhost" :=
                             PyInt (Z.b2z (py_bool (default (PyBool false)
                                (user_profile !! "host_is_superhost"))))]>
                           (feat_init airbnb_features)))))))) = Ok feat.
Proof.
  unfold airbnb_feat, arrondissement_arg, amenities_arg. intros Hfeat.
  destruct (py_int (default (PyInt 0) _)) as [li|]; [|discriminate].
  cbn [mbind result_bind] in Hfeat.
  destruct (py_int (default (PyInt 1) (user_profile !! "bathrooms")))
    as [ba|]; [|discriminate].
  cbn [mbind result_bind] in Hfeat.
  destruct (py_int (default (PyInt 1) (user_profile !! "bedrooms")))
    as [be|]; [|discriminate].
  cbn [mbind result_bind] in Hfeat.
  destruct (py_int (default (PyInt 1) (user_profile !! "arrondissement")))
    as [z|]; [|discriminate].
  cbn [mbind result_bind] in Hfeat.
  destruct (py_iter _) as [labels|]; [|discriminate].
  cbn [mbind result_bind] in Hfeat.
  exists li, ba, be, z, labels. by repeat split.
Qed.

(** A frame that the nightly builder returned comes from a dict. *)
Lemma build_airbnb_inv user_profile df :
  build_airbnb_feature_df airbnb_features user_profile = Ok df ->
  exists feat,
    airbnb_feat airbnb_features user_profile = Ok feat /\
    df = (fun c => (c, feat !!! c)) <$> airbnb_features.
Proof.
  intros Hdf.
  destruct (airbnb_feat airbnb_features user_profile) as [feat|e] eqn:Hfeat.
  - exists feat. split; [reflexivity|].
    rewrite (build_airbnb_Ok _ _ _ Hfeat) in Hdf. by apply Ok_inj in Hdf.
  - unfold build_airbnb_feature_df in Hdf. rewrite Hfeat in Hdf. discriminate.
Qed.

(** The four room columns after the room loop. *)
Lemma room_loop_lookup room_type feat rt :
  rt ∈ room_types ->
  is_Some (feat !! ("room_" +:+ rt)) ->
  room_loop room_type feat !! ("room_" +:+ rt)
  = Some (PyInt (Z.b2z (py_eq_str room_type rt))).
Proof.
  intros Hrt Hsome. unfold room_loop, room_types in *. cbn [foldl].
  rewrite !elem_of_cons, elem_of_nil in Hrt.
  destruct Hrt as [->|[->|[->|[->|[]]]]].
  - rewrite !feat_mark_lookup_ne by discriminate.
    by apply feat_mark_lookup_eq.
  - rewrite !feat_mark_lookup_ne by discriminate.
    apply feat_mark_lookup_eq. by apply feat_mark_is_Some.
  - rewrite !feat_mark_lookup_ne by discriminate.
    apply feat_mark_lookup_eq. by do 2 apply feat_mark_is_Some.
  - apply feat_mark_lookup_eq. by do 3 apply feat_mark_is_Some.
Qed.

(** A column after the amenity loop. *)
Lemma amenity_loop_lookup labels feat feat' c :
  amenity_loop airbnb_features labels feat = Ok feat' ->
  is_Some (feat !! c) ->
  feat' !! c
  = if selects airbnb_features labels c then Some (PyInt 1) else feat !! c.
Proof.
  revert feat. induction labels as [|label labels IH]; intros feat;
    cbn [amenity_loop selects existsb].
  - intros Heq%Ok_inj _. by subst.
  - destruct (label_get _ label) as [model_col|e] eqn:Hget; [|discriminate].
    cbn [mbind result_bind]. intros Hloop Hsome.
    fold (selects airbnb_features labels c).
    rewrite (IH _ Hloop) by (by apply feat_mark_is_Some).
    destruct (selects airbnb_features labels c);
      [by rewrite orb_true_r|rewrite orb_false_r].
    destruct label as [| | | |s|]; simpl in Hget; try discriminate;
      apply Ok_inj in Hget; subst model_col;
      try (by apply feat_mark_lookup_ne).
    case_bool_decide as Hs.
    + rewrite Hs. by apply feat_mark_lookup_eq.
    + by apply feat_mark_lookup_ne.
Qed.

Lemma selects_prefix labels c :
  selects airbnb_features labels c = true -> String.prefix "amenity__" c = true.
Proof.
  unfold selects. intros (label & _ & Hl)%existsb_exists.
  destruct label; try discriminate.
  apply bool_decide_eq_true in Hl.
  by apply label_to_col_entry in Hl as (_ & Hp & _).
Qed.

End Encoder.

Lemma amenity_prefix_plain (c : string) :
  String.prefix "amenity__" c = true ->
  Forall (fun rt => c <> "room_" +:+ rt) room_types
  /\ (c ∉ ARRONDISSEMENT_COLUMNS)
  /\ (c ∉ ["host_is_superhost"; "host_listings_count";
           "host_identity_verified"; "bathrooms_text"; "bedrooms"]).
Proof.
  intros Hp. split; [|split].
  - apply Forall_forall. intros rt Hrt ->. revert Hrt Hp.
    unfold room_types. rewrite !elem_of_cons, elem_of_nil.
    intros [->|[->|[->|[->|[]]]]]; discriminate.
  - intros Hc.
    destruct (proj1 (Forall_forall _ _) arrondissement_columns_plain c Hc)
      as (Hp' & _). congruence.
  - rewrite !elem_of_cons, elem_of_nil.
    intros [->|[->|[->|[->|[->|[]]]]]]; discriminate.
Qed.

Lemma room_columns_plain (rt : string) :
  rt ∈ room_types ->
  String.prefix "amenity__" ("room_" +:+ rt) = false
  /\ (("room_" +:+ rt) ∉ ARRONDISSEMENT_COLUMNS)
  /\ (("room_" +:+ rt) ∉ ["host_is_superhost"; "host_listings_count";
                          "host_identity_verified"; "bathrooms_text"; "bedrooms"]).
Proof.
  unfold room_types. rewrite !elem_of_cons, elem_of_nil.
  intros [->|[->|[->|[->|[]]]]]; repeat split; compute_done.
Qed.

Lemma dict_get_in_range (z : Z) :
  (1 <= z <= 20)%Z ->
  exists col, dict_get z ARRONDISSEMENT_MAP = Some col
              /\ col ∈ ARRONDISSEMENT_COLUMNS.
Proof.
  intros Hz.
  destruct (dict_get z ARRONDISSEMENT_MAP) as [col|] eqn:Hget.
  - exists col. split; [reflexivity|]. by apply (dict_get_column z).
  - exfalso. revert Hget. unfold ARRONDISSEMENT_MAP. simpl.
    repeat (case_decide; [discriminate|]). lia.
Qed.

Section NightlyFrame.
Variable airbnb_features : list string.
Implicit Types (user_profile feat : gmap string pyval) (c : string).

(** X1.  Whenever the nightly builder returns, the columns of its frame
    are the columns of the model, in the model's order. *)
Theorem nightly_frame_schema_order user_profile (df : DataFrame) :
  build_airbnb_feature_df airbnb_features user_profile = Ok df ->
  df_columns df = airbnb_features /\ length df = length airbnb_features.
Proof.
  intros (feat & _ & ->)%build_airbnb_inv. split.
  - apply (df_columns_fmap (fun c => feat !!! c)).
  - by rewrite length_fmap.
Qed.

(** X2.  A profile typed as the data model has it (integer fields hold
    integers, the amenity field a list of strings; any field may be
    absent) is encoded without error. *)
Theorem typed_profile_encodes user_profile :
  typed_profile user_profile = true ->
  exists df, build_airbnb_feature_df airbnb_features user_profile = Ok df.
Proof.
  intros (feat & _ & Hbuild)%(build_airbnb_typed airbnb_features).
  eexists. exact Hbuild.
Qed.

(** X3.  In a frame of the nightly builder the arrondissement column that
    the table gives for the profile's number holds 1 and every other
    arrondissement column holds 0; for a number from 1 to 20 there is
    such a column. *)
Theorem nightly_arrondissement_one_hot user_profile (df : DataFrame) (z : Z) :
  build_airbnb_feature_df airbnb_features user_profile = Ok df ->
  py_int (arrondissement_arg user_profile) = Ok z ->
  (forall c, c ∈ ARRONDISSEMENT_COLUMNS -> c ∈ airbnb_features ->
     column_is c (PyInt (if decide (dict_get z ARRONDISSEMENT_MAP = Some c)
                         then 1 else 0)) df) /\
  ((1 <= z <= 20)%Z ->
   exists col, dict_get z ARRONDISSEMENT_MAP = Some col
               /\ col ∈ ARRONDISSEMENT_COLUMNS).
Proof.
  intros (feat & Hfeat & ->)%build_airbnb_inv Hz. split.
  - intros c Hc Hin. apply frame_column_is; [exact Hin|].
    by apply (airbnb_feat_arrondissement airbnb_features user_profile).
  - apply dict_get_in_range.
Qed.

(** X4.  In a frame of the nightly builder the column of each of the four
    room types holds 1 if the profile's room type (default
    "Entire home/apt") is that string and 0 otherwise: at most one room
    column holds 1, and none does for an unknown room type. *)
Theorem nightly_room_type_one_hot user_profile (df : DataFrame) (rt : string) :
  build_airbnb_feature_df airbnb_features user_profile = Ok df ->
  rt ∈ room_types ->
  ("room_" +:+ rt) ∈ airbnb_features ->
  let room_type :=
    default (PyStr "Entire home/apt") (user_profile !! "room_type") in
  column_is ("room_" +:+ rt) (PyInt (Z.b2z (py_eq_str room_type rt))) df /\
  (py_eq_str room_type rt = true <-> room_type = PyStr rt).
Proof.
  intros (feat & Hfeat & ->)%build_airbnb_inv Hrt Hin room_type. split.
  - apply frame_column_is; [exact Hin|].
    apply airbnb_feat_steps in Hfeat
      as (li & ba & be & z & labels & _ & _ & _ & _ & _ & Hloop).
    destruct (room_columns_plain rt Hrt) as (Hp & Harr & Hscalar).
    rewrite (amenity_loop_lookup_ne _ _ _ _ _ Hloop Hp).
    apply room_loop_lookup; [exact Hrt|].
    apply feat_mark_is_Some.
    do 5 (apply lookup_insert_is_Some'; right).
    rewrite feat_init_lookup. by rewrite decide_True.
  - destruct room_type as [| | | |s|]; simpl; try (split; discriminate).
    destruct (String.eqb_spec s rt) as [->|Hne]; split; try done.
    intros [= ->]. contradiction.
Qed.

(** The cell of an amenity column. *)
Lemma amenity_column_cell user_profile (df : DataFrame)
    (labels : list pyval) (c : string) :
  build_airbnb_feature_df airbnb_features user_profile = Ok df ->
  py_iter (amenities_arg user_profile) = Ok labels ->
  c ∈ airbnb_features ->
  String.prefix "amenity__" c = true ->
  column_is c (PyInt (if selects airbnb_features labels c then 1 else 0)) df.
Proof.
  intros (feat & Hfeat & ->)%build_airbnb_inv Hlabels Hin Hp.
  apply frame_column_is; [exact Hin|].
  apply airbnb_feat_steps in Hfeat
    as (li & ba & be & z & labels' & _ & _ & _ & _ & Hlabels' & Hloop).
  rewrite Hlabels in Hlabels'. apply Ok_inj in Hlabels'. subst labels'.
  destruct (amenity_prefix_plain c Hp) as (Hroom & Harr & Hscalar).
  assert (forall v : pyval,
            feat_mark (dict_get z ARRONDISSEMENT_MAP) v
              (<["bedrooms" := PyInt be]>
                 (<["bathrooms_text" := PyInt ba]>
                    (<["host_identity_verified" :=
                         PyInt (Z.b2z (py_bool (default (PyBool false)
                            (user_profile !! "host_identity_verified"))))]>
                       (<["host_listings_count" := PyInt li]>
                          (<["host_is_superhost" :=
                               PyInt (Z.b2z (py_bool (default (PyBool false)
                                  (user_profile !! "host_is_superhost"))))]>
                             (feat_init airbnb_features)))))) !! c
            = Some (PyInt 0)) as Hbefore.
  { intros v. rewrite feat_mark_lookup_ne.
    - rewrite !lookup_insert_ne by (intros <-; apply Hscalar; compute_done).
      rewrite feat_init_lookup. by rewrite decide_True.
    - intros Hcol. apply Harr. by apply (dict_get_column z). }
  rewrite (amenity_loop_lookup _ _ _ _ _ Hloop).
  - destruct (selects airbnb_features labels c); [reflexivity|].
    rewrite room_loop_lookup_ne by assumption. apply Hbefore.
  - apply room_loop_is_Some. rewrite Hbefore. by eexists.
Qed.

(** X5.  In a frame of the nightly builder an amenity column holds 1 if
    one of the profile's labels resolves to it through the catalog and 0
    otherwise; a label that does not resolve changes nothing. *)
Theorem nightly_amenities_many_hot user_profile (df : DataFrame)
    (labels : list pyval) (c : string) :
  build_airbnb_feature_df airbnb_features user_profile = Ok df ->
  py_iter (amenities_arg user_profile) = Ok labels ->
  c ∈ airbnb_features ->
  String.prefix "amenity__" c = true ->
  column_is c (PyInt (if selects airbnb_features labels c then 1 else 0)) df.
Proof. apply amenity_column_cell. Qed.

(** X6.  In a frame of the nightly builder the scalar columns hold what
    [int] and [bool] make of the profile's fields, with the defaults
    False, 0, False, 1 and 1 for a field that is absent. *)
Theorem nightly_scalar_columns user_profile (df : DataFrame) :
  build_airbnb_feature_df airbnb_features user_profile = Ok df ->
  exists li ba be : Z,
    py_int (default (PyInt 0) (user_profile !! "host_listings_count")) = Ok li /\
    py_int (default (PyInt 1) (user_profile !! "bathrooms")) = Ok ba /\
    py_int (default (PyInt 1) (user_profile !! "bedrooms")) = Ok be /\
    ("host_is_superhost" ∈ airbnb_features ->
     column_is "host_is_superhost"
       (PyInt (Z.b2z (py_bool (default (PyBool false)
                                 (user_profile !! "host_is_superhost"))))) df) /\
    ("host_listings_count" ∈ airbnb_features ->
     column_is "host_listings_count" (PyInt li) df) /\
    ("host_identity_verified" ∈ airbnb_features ->
     column_is "host_identity_verified"
       (PyInt (Z.b2z (py_bool (default (PyBool false)
                                 (user_profile !! "host_identity_verified"))))) df) /\
    ("bathrooms_text" ∈ airbnb_features ->
     column_is "bathrooms_text" (PyInt ba) df) /\
    ("bedrooms" ∈ airbnb_features -> column_is "bedrooms" (PyInt be) df).
Proof.
  intros (feat & Hfeat & ->)%build_airbnb_inv.
  apply airbnb_feat_steps in Hfeat
    as (li & ba & be & z & labels & Hli & Hba & Hbe & _ & _ & Hloop).
  exists li, ba, be. split; [exact Hli|]. split; [exact Hba|]. split; [exact Hbe|].
  assert (forall c v,
            c ∈ ["host_is_superhost"; "host_listings_count";
                 "host_identity_verified"; "bathrooms_text"; "bedrooms"] ->
            (<["bedrooms" := PyInt be]>
               (<["bathrooms_text" := PyInt ba]>
                  (<["host_identity_verified" :=
                       PyInt (Z.b2z (py_bool (default (PyBool false)
                          (user_profile !! "host_identity_verified"))))]>
                     (<["host_listings_count" := PyInt li]>
                        (<["host_is_superhost" :=
                             PyInt (Z.b2z (py_bool (default (PyBool false)
                                (user_profile !! "host_is_superhost"))))]>
                           (feat_init airbnb_features)))))) !! c = Some v ->
            c ∈ airbnb_features ->
            column_is c v ((fun c => (c, feat !!! c)) <$> airbnb_features))
    as Hscalar.
  { intros c v Hc Hv Hin. apply frame_column_is; [exact Hin|].
    assert (String.prefix "amenity__" c = false
            /\ Forall (fun rt => c <> "room_" +:+ rt) room_types
            /\ c ∉ ARRONDISSEMENT_COLUMNS) as (Hp & Hroom & Harr).
    { revert Hc. rewrite !elem_of_cons, elem_of_nil.
      intros [->|[->|[->|[->|[->|[]]]]]]; repeat split; compute_done. }
    rewrite (amenity_loop_lookup_ne _ _ _ _ _ Hloop Hp).
    rewrite room_loop_lookup_ne by assumption.
    rewrite feat_mark_lookup_ne; [exact Hv|].
    intros Hcol. apply Harr. by apply (dict_get_column z). }
  split; [|split; [|split; [|split]]]; intros Hin;
    (apply Hscalar; [compute_done| |exact Hin]).
  - rewrite !lookup_insert_ne by discriminate. apply lookup_insert_eq.
  - rewrite !lookup_insert_ne by discriminate. apply lookup_insert_eq.
  - rewrite !lookup_insert_ne by discriminate. apply lookup_insert_eq.
  - rewrite !lookup_insert_ne by discriminate. apply lookup_insert_eq.
  - apply lookup_insert_eq.
Qed.

End NightlyFrame.

Lemma nightly_frame_schema_order_witness :
  exists df,
    build_airbnb_feature_df sample_features sample_profile = Ok df /\
    df_columns df = sample_features /\ length df = length sample_features.
Proof.
  eexists. split; [vm_compute; reflexivity|].
  apply (nightly_frame_schema_order sample_features sample_profile).
  vm_compute. reflexivity.
Defined.

Lemma typed_profile_encodes_witness :
  typed_profile far_profile = true /\
  exists df, build_airbnb_feature_df sample_features far_profile = Ok df.
Proof.
  assert (typed_profile far_profile = true) as Htyped by (vm_compute; reflexivity).
  split; [exact Htyped|].
  exact (typed_profile_encodes sample_features far_profile Htyped).
Defined.

Lemma nightly_arrondissement_one_hot_witness :
  exists df,
    build_airbnb_feature_df sample_features sample_profile = Ok df /\
    column_is "Arrondissement_10e" (PyInt 1) df /\
    column_is "Arrondissement_9e" (PyInt 0) df.
Proof.
  eexists. split; [vm_compute; reflexivity|].
  assert (py_int (arrondissement_arg sample_profile) = Ok 10%Z) as Hz
    by (vm_compute; reflexivity).
  destruct (nightly_arrondissement_one_hot sample_features sample_profile _ 10
              ltac:(vm_compute; reflexivity) Hz) as [Hcols _].
  split.
  - apply (Hcols "Arrondissement_10e");
      apply (bool_decide_unpack _); vm_compute; exact I.
  - apply (Hcols "Arrondissement_9e");
      apply (bool_decide_unpack _); vm_compute; exact I.
Defined.

Lemma nightly_room_type_one_hot_witness :
  exists df,
    build_airbnb_feature_df sample_features sample_profile = Ok df /\
    column_is "room_Entire home/apt" (PyInt 1) df /\
    column_is "room_Hotel room" (PyInt 0) df.
Proof.
  eexists. split; [vm_compute; reflexivity|]. split.
  - apply (nightly_room_type_one_hot sample_features sample_profile _
             "Entire home/apt" ltac:(vm_compute; reflexivity));
      apply (bool_decide_unpack _); vm_compute; exact I.
  - apply (nightly_room_type_one_hot sample_features sample_profile _
             "Hotel room" ltac:(vm_compute; reflexivity));
      apply (bool_decide_unpack _); vm_compute; exact I.
Defined.

Lemma nightly_amenities_many_hot_witness :
  exists df,
    build_airbnb_feature_df sample_features sample_profile = Ok df /\
    column_is "amenity__wifi" (PyInt 1) df /\
    column_is "amenity__kitchen" (PyInt 0) df.
Proof.
  eexists. split; [vm_compute; reflexivity|].
  assert (py_iter (amenities_arg sample_profile) = Ok [PyStr "Wifi"]) as Hlabels
    by (vm_compute; reflexivity).
  assert (selects sample_features [PyStr "Wifi"] "amenity__wifi" = true) as Hwifi
    by (vm_compute; reflexivity).
  assert (selects sample_features [PyStr "Wifi"] "amenity__kitchen" = false)
    as Hkitchen by (vm_compute; reflexivity).
  split.
  - pose proof (nightly_amenities_many_hot sample_features sample_profile _
                  [PyStr "Wifi"] "amenity__wifi"
                  ltac:(vm_compute; reflexivity) Hlabels) as H.
    rewrite Hwifi in H. apply H.
    + apply (bool_decide_unpack _). vm_compute. exact I.
    + reflexivity.
  - pose proof (nightly_amenities_many_hot sample_features sample_profile _
                  [PyStr "Wifi"] "amenity__kitchen"
                  ltac:(vm_compute; reflexivity) Hlabels) as H.
    rewrite Hkitchen in H. apply H.
    + apply (bool_decide_unpack _). vm_compute. exact I.
    + reflexivity.
Defined.

Lemma nightly_scalar_columns_witness :
  exists df,
    build_airbnb_feature_df sample_features sample_profile = Ok df /\
    column_is "bedrooms" (PyInt 2) df /\
    column_is "host_listings_count" (PyInt 0) df.
Proof.
  eexists. split; [vm_compute; reflexivity|].
  destruct (nightly_scalar_columns sample_features sample_profile _
              ltac:(vm_compute; reflexivity))
    as (li & ba & be & Hli & Hba & Hbe & _ & Hlistings & _ & _ & Hbedrooms).
  vm_compute in Hli. vm_compute in Hbe.
  apply Ok_inj in Hli. apply Ok_inj in Hbe. subst li be.
  split.
  - apply Hbedrooms. apply (bool_decide_unpack _). vm_compute. exact I.
  - apply Hlistings. apply (bool_decide_unpack _). vm_compute. exact I.
Defined.

(** * Further properties of the monthly-rent builder *)

(** X7.  In a frame of the monthly-rent builder the arrondissement column
    that the table gives for the profile's number holds 1 and the other
    arrondissement columns hold 0. *)
Theorem renting_arrondissement_one_hot (user_profile : gmap string pyval)
    (df : DataFrame) (z : Z) :
  build_renting_feature_df user_profile = Ok df ->
  py_int (arrondissement_arg user_profile) = Ok z ->
  forall c, c ∈ ARRONDISSEMENT_COLUMNS ->
    column_is c (PyInt (if decide (dict_get z ARRONDISSEMENT_MAP = Some c)
                        then 1 else 0)) df.
Proof.
  intros Hdf Hz c Hc.
  destruct (build_renting_Ok _ _ Hz) as (feat & Hfeat & Hbuild).
  rewrite Hbuild in Hdf. apply Ok_inj in Hdf. subst df.
  apply frame_column_is.
  - by apply (proj1 (Forall_forall _ _) arrondissement_columns_rent).
  - by apply (renting_feat_arrondissement user_profile).
Qed.

Lemma renting_arrondissement_one_hot_witness :
  exists df,
    build_renting_feature_df sample_profile = Ok df /\
    column_is "Arrondissement_10e" (PyInt 1) df /\
    column_is "Arrondissement_1er" (PyInt 0) df.
Proof.
  eexists. split; [vm_compute; reflexivity|].
  assert (py_int (arrondissement_arg sample_profile) = Ok 10%Z) as Hz
    by (vm_compute; reflexivity).
  pose proof (renting_arrondissement_one_hot sample_profile _ 10
                ltac:(vm_compute; reflexivity) Hz) as Hcols.
  split.
  - apply (Hcols "Arrondissement_10e").
    apply (bool_decide_unpack _). vm_compute. exact I.
  - apply (Hcols "Arrondissement_1er").
    apply (bool_decide_unpack _). vm_compute. exact I.
Defined.

(** X8.  In a frame of the monthly-rent builder the furnished and the
    unfurnished columns are complementary: with [bool(furnished)] true
    they hold 1 and 0, otherwise (also when the field is absent) 0 and 1. *)
Theorem renting_furnished_complementary (user_profile : gmap string pyval)
    (df : DataFrame) :
  build_renting_feature_df user_profile = Ok df ->
  let furnished :=
    py_bool (default (PyBool false) (user_profile !! "furnished")) in
  column_is "Type de locationom_meublé" (PyInt (Z.b2z furnished)) df /\
  column_is "Type de locationom_non meublé" (PyInt (1 - Z.b2z furnished)) df.
Proof.
  intros Hdf furnished.
  destruct (py_int (arrondissement_arg user_profile)) as [z|e] eqn:Hz;
    [|by rewrite (build_renting_Raise _ _ Hz) in Hdf].
  destruct (build_renting_Ok _ _ Hz) as (feat & Hfeat & Hbuild).
  rewrite Hbuild in Hdf. apply Ok_inj in Hdf. subst df.
  unfold renting_feat in Hfeat. unfold arrondissement_arg in Hz.
  rewrite Hz in Hfeat. cbn [mbind result_bind] in Hfeat.
  apply Ok_inj in Hfeat. subst feat. fold furnished. split.
  - apply frame_column_is; [compute_done|].
    rewrite lookup_insert_ne by discriminate. apply lookup_insert_eq.
  - apply frame_column_is; [compute_done|].
    rewrite lookup_insert_eq. by destruct furnished.
Qed.

Lemma renting_furnished_complementary_witness :
  exists df,
    build_renting_feature_df (<["furnished" := PyBool true]> sample_profile)
    = Ok df /\
    column_is "Type de locationom_meublé" (PyInt 1) df /\
    column_is "Type de locationom_non meublé" (PyInt 0) df.
Proof.
  eexists. split; [vm_compute; reflexivity|].
  match goal with
  | |- column_is _ _ ?df /\ _ =>
      assert (build_renting_feature_df
                (<["furnished" := PyBool true]> sample_profile) = Ok df) as Hb
        by (vm_compute; reflexivity);
      pose proof (renting_furnished_complementary _ _ Hb) as H
  end.
  cbv zeta in H.
  assert (py_bool (default (PyBool false)
                     (<["furnished" := PyBool true]> sample_profile !! "furnished"))
          = true) as Hf by (vm_compute; reflexivity).
  rewrite Hf in H. exact H.
Defined.

(** * Error and edge behaviour of the amenity field *)

Section AmenityField.
Variable airbnb_features : list string.
Implicit Types (user_profile feat : gmap string pyval).

(** X9.  A falsy amenity value ([None], [0], [False], [""], [[]]) is
    encoded as no amenities at all: the builder does what it does for the
    profile without the field. *)
Theorem amenities_falsy_is_absent user_profile (v : pyval) :
  py_bool v = false ->
  build_airbnb_feature_df airbnb_features (<["amenities" := v]> user_profile)
  = build_airbnb_feature_df airbnb_features (delete "amenities" user_profile).
Proof.
  intros Hv.
  assert (forall k : string, k <> "amenities" ->
            <["amenities" := v]> user_profile !! k
            = delete "amenities" user_profile !! k) as Hother.
  { intros k Hk. rewrite lookup_insert_ne, lookup_delete_ne by congruence.
    reflexivity. }
  assert (py_or (default (PyList []) (<["amenities" := v]> user_profile !! "amenities"))
                (PyList [])
          = py_or (default (PyList [])
                     (delete "amenities" user_profile !! "amenities"))
                  (PyList [])) as Hamenities.
  { rewrite lookup_insert_eq, lookup_delete_eq.
    unfold py_or. simpl. by rewrite Hv. }
  unfold build_airbnb_feature_df, airbnb_feat.
  rewrite Hamenities.
  rewrite (Hother "host_is_superhost") by discriminate.
  rewrite (Hother "host_listings_count") by discriminate.
  rewrite (Hother "host_identity_verified") by discriminate.
  rewrite (Hother "bathrooms") by discriminate.
  rewrite (Hother "bedrooms") by discriminate.
  rewrite (Hother "arrondissement") by discriminate.
  rewrite (Hother "room_type") by discriminate.
  reflexivity.
Qed.

Lemma amenity_loop_unhashable labels feat :
  Exists (fun label => exists l, label = PyList l) labels ->
  amenity_loop airbnb_features labels feat = Raise TypeError.
Proof.
  intros Hex. revert feat.
  induction Hex as [label labels [l ->]|label labels _ IH]; intros feat;
    cbn [amenity_loop].
  - reflexivity.
  - destruct (label_get _ label) as [model_col|e] eqn:Hget.
    + cbn [mbind result_bind]. apply IH.
    + destruct label; simpl in Hget; try discriminate.
      by injection Hget as <-.
Qed.

(** X10.  For a profile whose integer fields [int] accepts, the nightly
    builder raises [TypeError] when the amenity value is a truthy value
    that cannot be iterated (a number or [True]) and when it is a list
    that holds a list (an unhashable label). *)
Theorem amenities_type_error user_profile (v : pyval) :
  is_Ok (py_int (default (PyInt 0) (user_profile !! "host_listings_count"))) ->
  is_Ok (py_int (default (PyInt 1) (user_profile !! "bathrooms"))) ->
  is_Ok (py_int (default (PyInt 1) (user_profile !! "bedrooms"))) ->
  is_Ok (py_int (arrondissement_arg user_profile)) ->
  user_profile !! "amenities" = Some v ->
  (py_bool v = true /\ py_iter v = Raise TypeError) \/
  (exists labels,
      v = PyList labels /\
      Exists (fun label => exists l, label = PyList l) labels) ->
  build_airbnb_feature_df airbnb_features user_profile = Raise TypeError.
Proof.
  intros [li Hli] [ba Hba] [be Hbe] [z Hz] Hv Hcase.
  unfold build_airbnb_feature_df, airbnb_feat.
  unfold arrondissement_arg in Hz. rewrite Hli, Hba, Hbe, Hz, Hv.
  cbn [mbind result_bind].
  change (default (PyList []) (Some v)) with v.
  destruct Hcase as [[Htrue Hiter]|(labels & -> & Hex)].
  - unfold py_or. rewrite Htrue, Hiter. reflexivity.
  - destruct labels as [|label labels]; [by apply Exists_nil in Hex|].
    cbn [py_or py_bool py_iter mbind result_bind].
    by rewrite amenity_loop_unhashable.
Qed.

End AmenityField.

Lemma amenities_falsy_is_absent_witness :
  build_airbnb_feature_df sample_features (<["amenities" := PyNone]> sample_profile)
  = build_airbnb_feature_df sample_features (delete "amenities" sample_profile).
Proof.
  apply (amenities_falsy_is_absent sample_features sample_profile PyNone).
  reflexivity.
Defined.

Lemma amenities_type_error_witness :
  build_airbnb_feature_df sample_features
    (<["amenities" := PyInt 3]> sample_profile) = Raise TypeError
  /\ build_airbnb_feature_df sample_features
       (<["amenities" := PyList [PyStr "Wifi"; PyList []]]> sample_profile)
     = Raise TypeError.
Proof.
  split.
  - apply (amenities_type_error sample_features
             (<["amenities" := PyInt 3]> sample_profile) (PyInt 3));
      try (by eexists); try reflexivity.
    left. split; reflexivity.
  - apply (amenities_type_error sample_features
             (<["amenities" := PyList [PyStr "Wifi"; PyList []]]> sample_profile)
             (PyList [PyStr "Wifi"; PyList []]));
      try (by eexists); try reflexivity.
    right. eexists. split; [reflexivity|].
    apply Exists_cons_tl, Exists_cons_hd. by eexists.
Defined.

(** * Further properties of the sweep and of the KPIs *)

Section Agreement.
Implicit Types (df : DataFrame) (c : string) (P Q : string -> Prop).

Lemma frames_agree_columns P df1 df2 :
  frames_agree P df1 df2 -> df_columns df1 = df_columns df2.
Proof.
  unfold frames_agree, df_columns.
  induction 1 as [|a b df1 df2 [Hl _] _ IH]; [reflexivity|].
  cbn. by rewrite Hl, IH.
Qed.

Lemma frames_agree_contains P df1 df2 c :
  frames_agree P df1 df2 -> df_contains c df1 = df_contains c df2.
Proof.
  intros Hagree. unfold df_contains.
  by rewrite (frames_agree_columns _ _ _ Hagree).
Qed.

Lemma frames_agree_mono P Q df1 df2 :
  (forall x, P x -> Q x) -> frames_agree P df1 df2 -> frames_agree Q df1 df2.
Proof.
  intros HPQ Hagree. unfold frames_agree in *.
  eapply Forall2_impl; [exact Hagree|].
  intros a b [Hl Hv]. split; [exact Hl|]. intros HQ. apply Hv. auto.
Qed.

Lemma frames_agree_eq P df1 df2 :
  (forall x, ~ P x) -> frames_agree P df1 df2 -> df1 = df2.
Proof.
  intros HP. unfold frames_agree.
  induction 1 as [|[c1 v1] [c2 v2] df1 df2 [Hl Hv] _ IH]; [reflexivity|].
  cbn in *. subst c2. rewrite (Hv (HP c1)), IH. reflexivity.
Qed.

(** [df[c] = v] relabels in place and appends when the label is new. *)
Lemma df_setitem_alt c v df :
  df_setitem c v df
  = ((fun col => if String.eqb col.1 c then (col.1, v) else col) <$> df)
      ++ (if df_contains c df then [] else [(c, v)]).
Proof.
  unfold df_setitem. destruct (df_contains c df) eqn:Hc.
  - by rewrite app_nil_r.
  - f_equal. symmetry.
    assert (c ∉ df_columns df) as Hnin.
    { intros Hin%df_contains_spec. congruence. }
    clear Hc. unfold df_columns in Hnin.
    induction df as [|[c' x] df IH]; [reflexivity|].
    cbn in *. apply not_elem_of_cons in Hnin as [Hne Hnin].
    destruct (String.eqb_spec c' c) as [->|_]; [contradiction|].
    by rewrite IH.
Qed.

Lemma frames_agree_setitem P df1 df2 c v :
  frames_agree P df1 df2 ->
  frames_agree (fun x => P x /\ x <> c) (df_setitem c v df1) (df_setitem c v df2).
Proof.
  intros Hagree. rewrite !df_setitem_alt.
  rewrite <- (frames_agree_contains _ _ _ c Hagree).
  unfold frames_agree in *. apply Forall2_app.
  - apply Forall2_fmap.
    eapply Forall2_impl; [exact Hagree|].
    intros [c1 v1] [c2 v2] [Hl Hv]. cbn in *. subst c2.
    destruct (String.eqb_spec c1 c) as [->|Hne]; cbn.
    + split; [reflexivity|]. intros _. reflexivity.
    + split; [reflexivity|]. intros HP. apply Hv. tauto.
  - destruct (df_contains c df1); repeat constructor.
Qed.

Lemma frames_agree_zero_all P cols df1 df2 :
  frames_agree P df1 df2 ->
  frames_agree (fun x => P x /\ x ∉ cols) (zero_all cols df1) (zero_all cols df2).
Proof.
  revert P df1 df2. induction cols as [|c0 cols IH]; intros P df1 df2 Hagree.
  - eapply frames_agree_mono; [|exact Hagree]. intros x HP. split; [done|].
    apply not_elem_of_nil.
  - rewrite !zero_all_cons.
    pose proof (frames_agree_setitem _ _ _ c0 (PyInt 0) Hagree) as Hset.
    apply IH in Hset.
    eapply frames_agree_mono; [|exact Hset].
    intros x [[HP Hne] Hx]. split; [exact HP|].
    apply not_elem_of_cons. by split.
Qed.

Lemma frames_agree_zero_present P cols df1 df2 :
  frames_agree P df1 df2 ->
  frames_agree (fun x => P x /\ x ∉ cols)
               (zero_present cols df1) (zero_present cols df2).
Proof.
  revert P df1 df2. induction cols as [|c0 cols IH]; intros P df1 df2 Hagree.
  - eapply frames_agree_mono; [|exact Hagree]. intros x HP. split; [done|].
    apply not_elem_of_nil.
  - rewrite !zero_present_cons.
    rewrite <- (frames_agree_contains _ _ _ c0 Hagree).
    destruct (df_contains c0 df1) eqn:Hc0.
    + pose proof (frames_agree_setitem _ _ _ c0 (PyInt 0) Hagree) as Hset.
      apply IH in Hset.
      eapply frames_agree_mono; [|exact Hset].
      intros x [[HP Hne] Hx]. split; [exact HP|].
      apply not_elem_of_cons. by split.
    + (* neither frame has a column [c0] *)
      assert (frames_agree (fun x => P x /\ x <> c0) df1 df2) as Hagree'.
      { assert (c0 ∉ df_columns df1) as Hnin.
        { intros Hin%df_contains_spec. congruence. }
        clear Hc0 IH. unfold frames_agree, df_columns in *.
        induction Hagree as [|a b df1 df2 [Hl Hv] _ IHa]; [constructor|].
        cbn in Hnin. apply not_elem_of_cons in Hnin as [Hne Hnin].
        constructor; [|by apply IHa].
        split; [exact Hl|]. intros HP. apply Hv. intros HPa. apply HP.
        split; [exact HPa|congruence]. }
      apply IH in Hagree'.
      eapply frames_agree_mono; [|exact Hagree'].
      intros x [[HP Hne] Hx]. split; [exact HP|].
      apply not_elem_of_cons. by split.
Qed.

End Agreement.

Section Independence.
Variable airbnb_features : list string.
Variable model_airbnb_price : Model.
Implicit Types (user_profile feat : gmap string pyval) (c : string).

(** The rows of the sweep, from the user's frame. *)
Lemma predict_all_rows user_profile (base_df : DataFrame) :
  build_airbnb_feature_df airbnb_features user_profile = Ok base_df ->
  predict_all_arrondissement_prices airbnb_features model_airbnb_price user_profile
  = Ok ((fun item : Z * string =>
           {| Arrondissement_Code :=
                PyStr.of_int (default 0%Z (dict_get item.1 INSEE_MAP));
              Avg_Price_Apt :=
                price_of_log (model_airbnb_price (sweep_frame base_df item.2));
              Arrondissement_Number := item.1 |}) <$> ARRONDISSEMENT_MAP).
Proof.
  intros Hbuild. unfold predict_all_arrondissement_prices. rewrite Hbuild.
  cbn [mbind result_bind]. apply mapM_Ok.
  eapply Forall_impl; [apply arrondissement_items|].
  intros [n col] [_ [code Hcode]]. unfold dict_getitem.
  cbn [fst snd] in *. by rewrite Hcode.
Qed.

(** Two profiles that differ at most in the arrondissement field fill
    every column outside the arrondissement group alike. *)
Lemma airbnb_feat_outside user_profile1 user_profile2 feat1 feat2 c :
  (forall k : string, k <> "arrondissement" ->
     user_profile1 !! k = user_profile2 !! k) ->
  airbnb_feat airbnb_features user_profile1 = Ok feat1 ->
  airbnb_feat airbnb_features user_profile2 = Ok feat2 ->
  c ∈ airbnb_features -> c ∉ ARRONDISSEMENT_COLUMNS ->
  feat1 !! c = feat2 !! c.
Proof.
  intros Hsame Hfeat1 Hfeat2 Hin Harr.
  apply airbnb_feat_steps in Hfeat1
    as (li & ba & be & z1 & labels & Hli & Hba & Hbe & _ & Hlabels & Hloop1).
  apply airbnb_feat_steps in Hfeat2
    as (li' & ba' & be' & z2 & labels' & Hli' & Hba' & Hbe' & _ & Hlabels' & Hloop2).
  unfold amenities_arg in *.
  rewrite <- (Hsame "host_listings_count") in Hli' by discriminate.
  rewrite <- (Hsame "bathrooms") in Hba' by discriminate.
  rewrite <- (Hsame "bedrooms") in Hbe' by discriminate.
  rewrite <- (Hsame "amenities") in Hlabels' by discriminate.
  rewrite <- (Hsame "room_type") in Hloop2 by discriminate.
  rewrite <- (Hsame "host_is_superhost") in Hloop2 by discriminate.
  rewrite <- (Hsame "host_identity_verified") in Hloop2 by discriminate.
  rewrite Hli in Hli'. rewrite Hba in Hba'. rewrite Hbe in Hbe'.
  rewrite Hlabels in Hlabels'.
  apply Ok_inj in Hli', Hba', Hbe', Hlabels'. subst li' ba' be' labels'.
  set (written :=
         <["bedrooms" := PyInt be]>
           (<["bathrooms_text" := PyInt ba]>
              (<["host_identity_verified" :=
                   PyInt (Z.b2z (py_bool (default (PyBool false)
                      (user_profile1 !! "host_identity_verified"))))]>
                 (<["host_listings_count" := PyInt li]>
                    (<["host_is_superhost" :=
                         PyInt (Z.b2z (py_bool (default (PyBool false)
                            (user_profile1 !! "host_is_superhost"))))]>
                       (feat_init airbnb_features)))))) in *.
  set (room_type :=
         default (PyStr "Entire home/apt") (user_profile1 !! "room_type")) in *.
  assert (is_Some (written !! c)) as Hsome.
  { unfold written. do 5 (apply lookup_insert_is_Some'; right).
    rewrite feat_init_lookup. by rewrite decide_True. }
  assert (forall z, feat_mark (dict_get z ARRONDISSEMENT_MAP) (PyInt 1) written !! c
                    = written !! c) as Hmark.
  { intros z. apply feat_mark_lookup_ne. intros Hcol. apply Harr.
    by apply (dict_get_column z). }
  assert (forall z,
            room_loop room_type
              (feat_mark (dict_get z ARRONDISSEMENT_MAP) (PyInt 1) written) !! c
            = room_loop room_type written !! c) as Hroom.
  { intros z.
    destruct (decide (Forall (fun rt => c <> "room_" +:+ rt) room_types))
      as [Hplain|Hroomcol].
    - rewrite !room_loop_lookup_ne by assumption. apply Hmark.
    - apply not_Forall_Exists in Hroomcol; [|apply _].
      apply Exists_exists in Hroomcol as (rt & Hrt & Heq).
      assert (c = "room_" +:+ rt) as ->.
      { destruct (decide (c = "room_" +:+ rt)); [assumption|].
        exfalso. by apply Heq. }
      rewrite !room_loop_lookup; try assumption; [reflexivity|].
      by apply feat_mark_is_Some. }
  rewrite (amenity_loop_lookup _ _ _ _ c Hloop1)
    by (by apply room_loop_is_Some, feat_mark_is_Some).
  rewrite (amenity_loop_lookup _ _ _ _ c Hloop2)
    by (by apply room_loop_is_Some, feat_mark_is_Some).
  by rewrite (Hroom z1), (Hroom z2).
Qed.

Lemma build_airbnb_outside user_profile1 user_profile2 (df1 df2 : DataFrame) :
  (forall k : string, k <> "arrondissement" ->
     user_profile1 !! k = user_profile2 !! k) ->
  build_airbnb_feature_df airbnb_features user_profile1 = Ok df1 ->
  build_airbnb_feature_df airbnb_features user_profile2 = Ok df2 ->
  frames_agree (fun c => c ∈ ARRONDISSEMENT_COLUMNS) df1 df2.
Proof.
  intros Hsame (feat1 & Hfeat1 & ->)%build_airbnb_inv
         (feat2 & Hfeat2 & ->)%build_airbnb_inv.
  unfold frames_agree. apply Forall2_fmap, Forall_Forall2_diag, Forall_forall.
  intros c Hin. cbn. split; [reflexivity|]. intros Harr.
  rewrite !lookup_total_alt.
  by rewrite (airbnb_feat_outside _ _ _ _ c Hsame Hfeat1 Hfeat2 Hin Harr).
Qed.

Lemma sweep_frame_agree (df1 df2 : DataFrame) (arr_col : string) :
  frames_agree (fun c => c ∈ ARRONDISSEMENT_COLUMNS) df1 df2 ->
  sweep_frame df1 arr_col = sweep_frame df2 arr_col.
Proof.
  intros Hagree. rewrite !sweep_frame_eq.
  assert (zero_present ARRONDISSEMENT_COLUMNS df1
          = zero_present ARRONDISSEMENT_COLUMNS df2) as ->; [|reflexivity].
  eapply frames_agree_eq;
    [|exact (frames_agree_zero_present _ ARRONDISSEMENT_COLUMNS _ _ Hagree)].
  intros x [Hin Hnin]. contradiction.
Qed.

Lemma median_frame_agree (df1 df2 : DataFrame) (median_col : string) :
  frames_agree (fun c => c ∈ ARRONDISSEMENT_COLUMNS) df1 df2 ->
  median_frame df1 median_col = median_frame df2 median_col.
Proof.
  intros Hagree. rewrite !median_frame_eq.
  assert (zero_all ARRONDISSEMENT_COLUMNS df1
          = zero_all ARRONDISSEMENT_COLUMNS df2) as ->; [|reflexivity].
  eapply frames_agree_eq;
    [|exact (frames_agree_zero_all _ ARRONDISSEMENT_COLUMNS _ _ Hagree)].
  intros x [Hin Hnin]. contradiction.
Qed.

(** X11.  The sweep does not depend on the arrondissement of the profile:
    two profiles that differ at most in that field get the same rows. *)
Theorem sweep_ignores_arrondissement user_profile1 user_profile2
    (rows1 rows2 : list sweep_row) :
  (forall k : string, k <> "arrondissement" ->
     user_profile1 !! k = user_profile2 !! k) ->
  predict_all_arrondissement_prices airbnb_features model_airbnb_price
    user_profile1 = Ok rows1 ->
  predict_all_arrondissement_prices airbnb_features model_airbnb_price
    user_profile2 = Ok rows2 ->
  rows1 = rows2.
Proof.
  intros Hsame Hrows1 Hrows2.
  destruct (build_airbnb_feature_df airbnb_features user_profile1)
    as [df1|e] eqn:Hdf1;
    [|unfold predict_all_arrondissement_prices in Hrows1;
      by rewrite Hdf1 in Hrows1].
  destruct (build_airbnb_feature_df airbnb_features user_profile2)
    as [df2|e] eqn:Hdf2;
    [|unfold predict_all_arrondissement_prices in Hrows2;
      by rewrite Hdf2 in Hrows2].
  rewrite (predict_all_rows _ _ Hdf1) in Hrows1.
  rewrite (predict_all_rows _ _ Hdf2) in Hrows2.
  apply Ok_inj in Hrows1, Hrows2. subst rows1 rows2.
  apply list_fmap_ext. intros _ [n col] _. cbn [fst snd].
  by rewrite (sweep_frame_agree df1 df2 col
                (build_airbnb_outside _ _ _ _ Hsame Hdf1 Hdf2)).
Qed.

(** X12.  The median-location price, the baseline price and the quality
    impact do not depend on the arrondissement of the profile: two
    profiles that differ at most in that field get the same KPIs for the
    same actual price. *)
Theorem kpis_ignore_arrondissement user_profile1 user_profile2
    (current_predicted_price : Z) (kpis1 kpis2 : impact_kpis) :
  (forall k : string, k <> "arrondissement" ->
     user_profile1 !! k = user_profile2 !! k) ->
  calculate_price_impact_kpis airbnb_features model_airbnb_price
    user_profile1 current_predicted_price = Ok kpis1 ->
  calculate_price_impact_kpis airbnb_features model_airbnb_price
    user_profile2 current_predicted_price = Ok kpis2 ->
  kpis1 = kpis2.
Proof.
  intros Hsame. unfold calculate_price_impact_kpis.
  destruct (build_airbnb_feature_df airbnb_features user_profile1)
    as [df1|e] eqn:Hdf1; [|discriminate].
  destruct (build_airbnb_feature_df airbnb_features user_profile2)
    as [df2|e] eqn:Hdf2; [|discriminate].
  cbn [mbind result_bind].
  destruct (dict_get MEDIAN_ARRONDISSEMENT ARRONDISSEMENT_MAP) as [median_col|];
    [|discriminate].
  rewrite (median_frame_agree df1 df2 median_col
             (build_airbnb_outside _ _ _ _ Hsame Hdf1 Hdf2)).
  intros H1%Ok_inj H2%Ok_inj. by subst.
Qed.

(** X13.  The two impacts add up to the distance between the actual price
    and the baseline price, and only the location impact depends on the
    actual price. *)
Theorem kpis_telescope user_profile (price price' : Z) (kpis kpis' : impact_kpis) :
  calculate_price_impact_kpis airbnb_features model_airbnb_price
    user_profile price = Ok kpis ->
  calculate_price_impact_kpis airbnb_features model_airbnb_price
    user_profile price' = Ok kpis' ->
  (location_impact kpis + quality_impact kpis = price - baseline_price kpis)%Z /\
  median_location_price kpis' = median_location_price kpis /\
  baseline_price kpis' = baseline_price kpis /\
  quality_impact kpis' = quality_impact kpis /\
  (location_impact kpis' - location_impact kpis = price' - price)%Z.
Proof.
  unfold calculate_price_impact_kpis.
  destruct (build_airbnb_feature_df airbnb_features user_profile)
    as [df|e]; [|discriminate].
  cbn [mbind result_bind].
  destruct (dict_get MEDIAN_ARRONDISSEMENT ARRONDISSEMENT_MAP) as [median_col|];
    [|discriminate].
  intros H1%Ok_inj H2%Ok_inj. subst kpis kpis'. cbn.
  repeat split; lia.
Qed.


End Independence.

Lemma calculate_returns (airbnb_features : list string) (model : Model)
    (user_profile : gmap string pyval) (price : Z) (df : DataFrame) :
  build_airbnb_feature_df airbnb_features user_profile = Ok df ->
  is_Ok (calculate_price_impact_kpis airbnb_features model user_profile price).
Proof.
  intros Hdf. unfold calculate_price_impact_kpis. rewrite Hdf. by eexists.
Qed.

Lemma far_profile_differs (k : string) :
  k <> "arrondissement" -> sample_profile !! k = far_profile !! k.
Proof.
  intros Hk. unfold far_profile. by rewrite lookup_insert_ne by congruence.
Qed.

Lemma sample_profiles_encode :
  (exists df, build_airbnb_feature_df sample_features sample_profile = Ok df) /\
  (exists df, build_airbnb_feature_df sample_features far_profile = Ok df).
Proof.
  split.
  - destruct (build_airbnb_typed sample_features sample_profile)
      as (feat & _ & Hb); [vm_compute; reflexivity|]. eexists. exact Hb.
  - destruct (build_airbnb_typed sample_features far_profile)
      as (feat & _ & Hb); [vm_compute; reflexivity|]. eexists. exact Hb.
Qed.

Lemma sweep_ignores_arrondissement_witness :
  exists rows,
    predict_all_arrondissement_prices sample_features (fun _ => 0%Q) sample_profile
    = Ok rows /\
    predict_all_arrondissement_prices sample_features (fun _ => 0%Q) far_profile
    = Ok rows.
Proof.
  destruct sample_profiles_encode as [[df1 Hdf1] [df2 Hdf2]].
  pose proof (predict_all_rows sample_features (fun _ => 0%Q) _ _ Hdf1) as Hrows1.
  pose proof (predict_all_rows sample_features (fun _ => 0%Q) _ _ Hdf2) as Hrows2.
  pose proof (sweep_ignores_arrondissement sample_features (fun _ => 0%Q)
                sample_profile far_profile _ _ far_profile_differs
                Hrows1 Hrows2) as Hsame.
  eexists. split; [exact Hrows1|].
  exact (eq_trans Hrows2 (f_equal Ok (eq_sym Hsame))).
Defined.

Lemma kpis_ignore_arrondissement_witness :
  exists kpis,
    calculate_price_impact_kpis sample_features (fun _ => 0%Q) sample_profile 120
    = Ok kpis /\
    calculate_price_impact_kpis sample_features (fun _ => 0%Q) far_profile 120
    = Ok kpis.
Proof.
  destruct sample_profiles_encode as [[df1 Hdf1] [df2 Hdf2]].
  destruct (calculate_returns sample_features (fun _ => 0%Q) _ 120 _ Hdf1)
    as [kpis1 Hk1].
  destruct (calculate_returns sample_features (fun _ => 0%Q) _ 120 _ Hdf2)
    as [kpis2 Hk2].
  pose proof (kpis_ignore_arrondissement sample_features (fun _ => 0%Q)
                sample_profile far_profile 120 _ _ far_profile_differs
                Hk1 Hk2) as Hsame.
  exists kpis1. split; [exact Hk1|].
  exact (eq_trans Hk2 (f_equal Ok (eq_sym Hsame))).
Defined.

Lemma kpis_telescope_witness :
  exists kpis kpis',
    calculate_price_impact_kpis sample_features (fun _ => 0%Q) sample_profile 120
    = Ok kpis /\
    calculate_price_impact_kpis sample_features (fun _ => 0%Q) sample_profile 100
    = Ok kpis' /\
    (location_impact kpis + quality_impact kpis = 120 - baseline_price kpis)%Z /\
    quality_impact kpis' = quality_impact kpis.
Proof.
  destruct sample_profiles_encode as [[df1 Hdf1] _].
  destruct (calculate_returns sample_features (fun _ => 0%Q) _ 120 _ Hdf1)
    as [kpis Hk].
  destruct (calculate_returns sample_features (fun _ => 0%Q) _ 100 _ Hdf1)
    as [kpis' Hk'].
  exists kpis, kpis'. split; [exact Hk|]. split; [exact Hk'|].
  destruct (kpis_telescope sample_features (fun _ => 0%Q) sample_profile
              120 100 kpis kpis' Hk Hk') as (Hsum & _ & _ & Hq & _).
  split; [exact Hsum|exact Hq].
Defined.

(** * Further properties of the confidence intervals *)









(** * Further properties of the amenity catalog *)

Section FoldInsertMore.
Context {V : Type} (key : string -> string) (val : string -> V).

Lemma foldl_insert_lookup_skip (cols : list string) (m : gmap string V) k :
  (forall c, c ∈ cols -> key c <> k) ->
  foldl (fun (m : gmap string V) c => <[key c := val c]> m) m cols !! k = m !! k.
Proof.
  revert m. induction cols as [|c cols IH]; intros m Hk; [reflexivity|].
  cbn [foldl]. rewrite IH.
  - apply lookup_insert_ne. apply Hk. by left.
  - intros c' Hc'. apply Hk. by right.
Qed.

(** The last write wins. *)
Lemma foldl_insert_lookup_last (before after : list string) (c : string)
    (m : gmap string V) :
  (forall c', c' ∈ after -> key c' <> key c) ->
  foldl (fun (m : gmap string V) c => <[key c := val c]> m) m
        (before ++ c :: after) !! key c = Some (val c).
Proof.
  intros Hafter. rewrite foldl_app. cbn [foldl].
  rewrite foldl_insert_lookup_skip by assumption.
  apply lookup_insert_eq.
Qed.

Lemma foldl_insert_size_le (cols : list string) (m : gmap string V) :
  size (foldl (fun (m : gmap string V) c => <[key c := val c]> m) m cols)
  <= size m + length cols.
Proof.
  revert m. induction cols as [|c cols IH]; intros m; cbn [foldl length].
  - lia.
  - pose proof (IH (<[key c := val c]> m)) as Hle.
    rewrite map_size_insert in Hle.
    destruct (m !! key c); unfold Datatypes.id in Hle; lia.
Qed.

End FoldInsertMore.

(** Where the last column with a given key stands in a list. *)
Lemma last_with_key (key : string -> string) (cols : list string) (k : string) :
  Exists (fun c => key c = k) cols ->
  exists before c after,
    cols = before ++ c :: after /\
    key c = k /\
    forall c', c' ∈ after -> key c' <> k.
Proof.
  induction cols as [|c0 cols IH]; intros Hex; [by apply Exists_nil in Hex|].
  destruct (decide (Exists (fun c => key c = k) cols)) as [Htail|Hnone].
  - destruct (IH Htail) as (before & c & after & -> & Hkey & Hafter).
    exists (c0 :: before), c, after. by repeat split.
  - apply Exists_cons in Hex as [Hhead|Htail]; [|contradiction].
    exists [], c0, cols. repeat split; [exact Hhead|].
    intros c' Hc' Heq. apply Hnone. apply Exists_exists. by exists c'.
Qed.

(** A key that some column carries is bound to the value of the last
    such column, whatever the map held before. *)
Lemma foldl_insert_lookup_Exists {V : Type} (key : string -> string)
    (val : string -> V) (cols : list string) (m : gmap string V) (k : string) :
  Exists (fun c => key c = k) cols ->
  exists c, c ∈ cols /\ key c = k /\
    foldl (fun (m : gmap string V) c => <[key c := val c]> m) m cols !! k
    = Some (val c).
Proof.
  intros (before & c & after & -> & Hkey & Hafter)%last_with_key.
  exists c. split; [|split; [exact Hkey|]].
  - apply elem_of_app. right. by left.
  - rewrite <- Hkey. apply foldl_insert_lookup_last.
    intros c' Hc'. rewrite Hkey. by apply Hafter.
Qed.

(** X17.  Whatever the schema: [col_to_label] is the cleaning function on
    the amenity columns and has no other key; every entry of
    [label_to_col] points to an amenity column with that label and is
    inverted by [col_to_label]; the label of every amenity column is a
    key of [label_to_col]; and neither map has more entries than there
    are amenity columns. *)
Theorem amenity_maps_always (feature_list : list string) :
  let amenity_cols := List.filter (String.prefix "amenity__") feature_list in
  let label_to_col := (build_amenity_maps feature_list).1 in
  let col_to_label := (build_amenity_maps feature_list).2 in
  (forall c,
     col_to_label !! c
     = if decide (c ∈ amenity_cols) then Some (clean_amenity_name c) else None) /\
  (forall label c,
     label_to_col !! label = Some c ->
     c ∈ amenity_cols /\ clean_amenity_name c = label
     /\ col_to_label !! c = Some label) /\
  (forall c, c ∈ amenity_cols -> is_Some (label_to_col !! clean_amenity_name c)) /\
  size label_to_col <= length amenity_cols /\
  size col_to_label <= length amenity_cols.
Proof.
  intros amenity_cols label_to_col col_to_label.
  assert (forall c,
     col_to_label !! c
     = if decide (c ∈ amenity_cols) then Some (clean_amenity_name c) else None)
    as Hc2l.
  { intros c. unfold col_to_label, build_amenity_maps. cbn [snd].
    fold amenity_cols. destruct (decide (c ∈ amenity_cols)) as [Hin|Hnin].
    - destruct (foldl_insert_lookup_Exists (fun c => c) clean_amenity_name
                  amenity_cols ∅ c) as (c' & _ & -> & Hlookup).
      + apply Exists_exists. by exists c.
      + exact Hlookup.
    - rewrite (foldl_insert_lookup_skip (fun c => c) clean_amenity_name).
      + apply lookup_empty.
      + intros c' Hc' ->. contradiction. }
  split; [exact Hc2l|]. split; [|split; [|split]].
  - intros label c Hlabel.
    unfold label_to_col, build_amenity_maps in Hlabel. cbn [fst] in Hlabel.
    fold amenity_cols in Hlabel.
    apply (foldl_insert_lookup clean_amenity_name (fun c => c)) in Hlabel
      as [(c' & Hc' & Hk & <-)|Hempty]; [|by rewrite lookup_empty in Hempty].
    split; [exact Hc'|]. split; [exact Hk|].
    rewrite Hc2l, decide_True by assumption. by rewrite Hk.
  - intros c Hc. unfold label_to_col, build_amenity_maps. cbn [fst].
    fold amenity_cols.
    destruct (foldl_insert_lookup_Exists clean_amenity_name (fun c => c)
                amenity_cols ∅ (clean_amenity_name c)) as (c' & _ & _ & ->).
    + apply Exists_exists. by exists c.
    + by eexists.
  - pose proof (foldl_insert_size_le clean_amenity_name (fun c => c)
                  amenity_cols ∅) as Hle.
    rewrite map_size_empty in Hle. exact Hle.
  - pose proof (foldl_insert_size_le (fun c => c) clean_amenity_name
                  amenity_cols ∅) as Hle.
    rewrite map_size_empty in Hle. exact Hle.
Qed.

(** X18.  Last write wins: when several amenity columns derive the same
    label, [label_to_col] binds the label to the last of them in schema
    order. *)
Theorem label_to_col_last_wins (feature_list before after : list string)
    (c : string) :
  List.filter (String.prefix "amenity__") feature_list = before ++ c :: after ->
  (forall c', c' ∈ after -> clean_amenity_name c' <> clean_amenity_name c) ->
  (build_amenity_maps feature_list).1 !! clean_amenity_name c = Some c.
Proof.
  intros Hcols Hafter. unfold build_amenity_maps. cbn [fst]. rewrite Hcols.
  by apply (foldl_insert_lookup_last clean_amenity_name (fun c => c)).
Qed.

Lemma label_to_col_last_wins_witness :
  (build_amenity_maps ["amenity__wifi"; "bedrooms"; "amenity__Wifi_"]).1
    !! "Wifi" = Some "amenity__Wifi_".
Proof.
  apply (label_to_col_last_wins
           ["amenity__wifi"; "bedrooms"; "amenity__Wifi_"]
           ["amenity__wifi"] [] "amenity__Wifi_").
  - reflexivity.
  - intros c' Hc'. by apply elem_of_nil in Hc'.
Defined.

(** X19.  A shadowed amenity column is never set: if a later amenity
    column derives the same label, no label resolves to the earlier
    column, and the column holds 0 in every frame of the nightly builder,
    whatever amenities the profile lists. *)
Theorem shadowed_amenity_column_zero (airbnb_features before after : list string)
    (c : string) :
  List.filter (String.prefix "amenity__") airbnb_features = before ++ c :: after ->
  c ∉ after ->
  Exists (fun c' => clean_amenity_name c' = clean_amenity_name c) after ->
  (forall label, label_to_amenity_col airbnb_features !! label <> Some c) /\
  (forall (user_profile : gmap string pyval) (df : DataFrame),
     build_airbnb_feature_df airbnb_features user_profile = Ok df ->
     column_is c (PyInt 0) df).
Proof.
  intros Hcols Hnin Hshadow.
  assert (forall label, label_to_amenity_col airbnb_features !! label <> Some c)
    as Hnever.
  { intros label Hlabel.
    pose proof (label_to_col_entry _ _ _ Hlabel) as (_ & _ & <-).
    unfold label_to_amenity_col, build_amenity_maps in Hlabel.
    cbn [fst] in Hlabel. rewrite Hcols, foldl_app in Hlabel. cbn [foldl] in Hlabel.
    destruct (foldl_insert_lookup_Exists clean_amenity_name (fun c => c) after
                (<[clean_amenity_name c := c]>
                   (foldl (fun (m : gmap string string) c =>
                             <[clean_amenity_name c := c]> m) ∅ before))
                (clean_amenity_name c) Hshadow) as (c' & Hc' & _ & Hlast).
    rewrite Hlast in Hlabel. injection Hlabel as ->. contradiction. }
  split; [exact Hnever|].
  intros user_profile df Hdf.
  assert (c ∈ airbnb_features /\ String.prefix "amenity__" c = true) as [Hin Hp].
  { assert (In c (List.filter (String.prefix "amenity__") airbnb_features)) as Hc.
    { rewrite Hcols. apply in_or_app. right. by left. }
    apply List.filter_In in Hc as [Hc Hp]. split; [|exact Hp].
    by apply list_elem_of_In. }
  pose proof (build_airbnb_inv _ _ _ Hdf) as (feat & Hfeat & _).
  apply airbnb_feat_steps in Hfeat
    as (li & ba & be & z & labels & _ & _ & _ & _ & Hlabels & _).
  pose proof (amenity_column_cell _ _ _ labels c Hdf Hlabels Hin Hp) as Hcell.
  assert (selects airbnb_features labels c = false) as Hsel.
  { unfold selects. apply not_true_is_false.
    intros (label & _ & Hl)%existsb_exists.
    destruct label; try discriminate.
    apply bool_decide_eq_true in Hl. by apply (Hnever s). }
  by rewrite Hsel in Hcell.
Qed.

Lemma shadowed_amenity_column_zero_witness :
  exists df,
    build_airbnb_feature_df ["amenity__wifi"; "bedrooms"; "amenity__Wifi_"]
      (<["amenities" := PyList [PyStr "Wifi"]]> ∅) = Ok df /\
    column_is "amenity__wifi" (PyInt 0) df.
Proof.
  eexists. split; [vm_compute; reflexivity|].
  apply (proj2 (shadowed_amenity_column_zero
                  ["amenity__wifi"; "bedrooms"; "amenity__Wifi_"]
                  [] ["amenity__Wifi_"] "amenity__wifi"
                  ltac:(reflexivity)
                  ltac:(apply (bool_decide_unpack _); vm_compute; exact I)
                  ltac:(apply Exists_cons_hd; vm_compute; reflexivity))
               (<["amenities" := PyList [PyStr "Wifi"]]> ∅)).
  vm_compute. reflexivity.
Defined.

(** * Further properties of the prediction routines *)



Section Routines.
Variable airbnb_features : list string.
Variables model_airbnb_price model_cleaning_costs model_renting_price : Model.
Implicit Types (user_data : gmap string pyval) (session_state : gmap string Z).


(** X21.  The prediction routines write only their own keys of the
    session state, and nothing at all when the builder raises, in which
    case they raise its exception. *)
Theorem run_computations_touch_own_keys user_data session_state :
  (forall k : string,
     k <> "user_price_prediction" -> k <> "user_cleaning_cost_prediction" ->
     (run_computations_airbnb airbnb_features model_airbnb_price
        model_cleaning_costs user_data session_state).1 !! k
     = session_state !! k) /\
  (forall k : string,
     k <> "user_renting_price_prediction" ->
     (run_computations_renting model_renting_price user_data session_state).1 !! k
     = session_state !! k) /\
  (forall e,
     build_airbnb_feature_df airbnb_features user_data = Raise e ->
     run_computations_airbnb airbnb_features model_airbnb_price
       model_cleaning_costs user_data session_state
     = (session_state, Raise e)) /\
  (forall e,
     build_renting_feature_df user_data = Raise e ->
     run_computations_renting model_renting_price user_data session_state
     = (session_state, Raise e)).
Proof.
  split; [|split; [|split]].
  - intros k Hk1 Hk2. unfold run_computations_airbnb.
    destruct (build_airbnb_feature_df _ _) as [df|e]; [|reflexivity].
    destruct (df_select _ df ≫= _); cbn [fst];
      rewrite ?lookup_insert_ne by congruence; reflexivity.
  - intros k Hk. unfold run_computations_renting.
    destruct (build_renting_feature_df _) as [df|e]; [|reflexivity].
    cbn [fst]. by rewrite lookup_insert_ne by congruence.
  - intros e He. unfold run_computations_airbnb. by rewrite He.
  - intros e He. unfold run_computations_renting. by rewrite He.
Qed.

End Routines.


(** * Labels *)

Section Labels.
Implicit Types (s : string) (c : ascii).

Lemma underscore_free_cons c s :
  underscore_free (String c s) <-> c <> "_"%char /\ underscore_free s.
Proof.
  unfold underscore_free.
  change (list_ascii_of_string (String c s)) with (c :: list_ascii_of_string s).
  apply (Forall_cons (fun ch : ascii => ch <> "_"%char)).
Qed.

Lemma underscore_free_empty : underscore_free EmptyString.
Proof. constructor. Qed.

Lemma underscore_free_app s1 s2 :
  underscore_free s1 -> underscore_free s2 -> underscore_free (s1 +:+ s2).
Proof.
  intros H1 H2. induction s1 as [|c s1 IH]; [exact H2|].
  apply underscore_free_cons in H1 as [Hc H1]. cbn.
  apply underscore_free_cons. split; [exact Hc|by apply IH].
Qed.

Lemma prefix_underscore c s :
  String.prefix "_" (String c s) = true <-> c = "_"%char.
Proof.
  split.
  - destruct c as [[] [] [] [] [] [] [] []]; vm_compute; intros H;
      first [reflexivity|discriminate H].
  - intros ->. cbn. by destruct s.
Qed.

Lemma replace_underscore_free s :
  underscore_free (PyStr.replace "_" " " s).
Proof.
  unfold PyStr.replace. induction s as [|c s IH]; [constructor|].
  cbn [PyStr.replace_from].
  destruct (String.prefix "_" (String c s)) eqn:Hp.
  - cbn. apply underscore_free_cons. split; [discriminate|exact IH].
  - apply underscore_free_cons. split; [|exact IH].
    intros Hc. apply (prefix_underscore c s) in Hc. congruence.
Qed.

Lemma replace_from_underscore_free (old new : string) (skip : nat) s :
  underscore_free new -> underscore_free s ->
  underscore_free (PyStr.replace_from old new skip s).
Proof.
  intros Hnew. revert skip. induction s as [|c s IH]; intros skip Hs;
    [constructor|].
  apply underscore_free_cons in Hs as [Hc Hs]. cbn [PyStr.replace_from].
  destruct skip as [|k]; [|by apply IH].
  destruct (String.prefix old (String c s)).
  - apply underscore_free_app; [exact Hnew|by apply IH].
  - apply underscore_free_cons. split; [exact Hc|by apply IH].
Qed.

Lemma lstrip_underscore_free s :
  underscore_free s -> underscore_free (PyStr.lstrip s).
Proof.
  induction s as [|c s IH]; intros Hs; [constructor|].
  cbn [PyStr.lstrip]. destruct (PyStr.is_space c); [|exact Hs].
  apply IH. by apply underscore_free_cons in Hs as [_ Hs].
Qed.

Lemma rstrip_with_underscore_free (f : ascii -> bool) s :
  underscore_free s -> underscore_free (PyStr.rstrip_with f s).
Proof.
  induction s as [|c s IH]; intros Hs; [constructor|].
  apply underscore_free_cons in Hs as [Hc Hs]. cbn [PyStr.rstrip_with].
  specialize (IH Hs). destruct (PyStr.rstrip_with f s) as [|c' r].
  - destruct (f c); [constructor|].
    apply underscore_free_cons. split; [exact Hc|constructor].
  - apply underscore_free_cons. by split.
Qed.

Lemma case_underscore c :
  c <> "_"%char ->
  PyStr.to_upper c <> "_"%char /\ PyStr.to_lower c <> "_"%char.
Proof.
  intros Hc. split; intros H; apply Hc; revert H;
    destruct c as [[] [] [] [] [] [] [] []]; vm_compute; intros H;
    first [reflexivity|discriminate H].
Qed.

Lemma title_from_underscore_free (n : nat) :
  forall s (previous_is_cased : bool),
    String.length s <= n -> underscore_free s ->
    underscore_free (PyStr.title_from previous_is_cased s).
Proof.
  induction n as [|n IH]; intros s b Hlen Hs.
  - destruct s; [constructor|cbn in Hlen; lia].
  - destruct s as [|c s]; [constructor|].
    apply underscore_free_cons in Hs as [Hc Hs]. cbn in Hlen.
    cbn [PyStr.title_from]. destruct (PyStr.is_cased c).
    + apply underscore_free_cons. split.
      * destruct (case_underscore c Hc). by destruct b.
      * apply IH; [lia|exact Hs].
    + destruct s as [|c2 s].
      * apply underscore_free_cons. split; [exact Hc|constructor].
      * destruct ((PyStr.code c =? 195)%N && (PyStr.code c2 =? 162)%N).
        -- apply underscore_free_cons in Hs as [Hc2 Hs]. cbn in Hlen.
           apply underscore_free_cons. split; [exact Hc|].
           apply underscore_free_cons. split.
           ++ destruct b; [exact Hc2|discriminate].
           ++ apply IH; [lia|exact Hs].
        -- apply underscore_free_cons. split; [exact Hc|].
           apply IH; [lia|exact Hs].
Qed.

End Labels.

(** X22.  A label never contains an underscore: neither the result of
    [clean_amenity_name] nor, hence, a key of [label_to_col]. *)
Theorem clean_amenity_name_underscore_free :
  (forall model_column : string,
     underscore_free (clean_amenity_name model_column)) /\
  (forall (feature_list : list string) (label c : string),
     (build_amenity_maps feature_list).1 !! label = Some c ->
     underscore_free label).
Proof.
  assert (forall model_column : string,
            underscore_free (clean_amenity_name model_column)) as Hclean.
  { intros model_column. unfold clean_amenity_name, PyStr.title, PyStr.strip.
    apply (title_from_underscore_free _ _ _ (Nat.le_refl _)).
    apply rstrip_with_underscore_free, lstrip_underscore_free.
    unfold PyStr.replace at 1.
    apply replace_from_underscore_free.
    - unfold underscore_free. repeat constructor; discriminate.
    - apply replace_underscore_free. }
  split; [exact Hclean|].
  intros feature_list label c Hlabel.
  apply label_to_col_entry in Hlabel as (_ & _ & <-). apply Hclean.
Qed.

(** * The sweep, the KPIs and the user's own frame *)

Section OwnFrame.
Implicit Types (df : DataFrame) (c : string).

Lemma relabel_absent c v df :
  c ∉ df_columns df ->
  (fun col : string * pyval => if String.eqb col.1 c then (col.1, v) else col) <$> df
  = df.
Proof.
  unfold df_columns. induction df as [|[c' x] df IH]; intros Hnin; [reflexivity|].
  cbn in *. apply not_elem_of_cons in Hnin as [Hne Hnin].
  destruct (String.eqb_spec c' c) as [->|_]; [contradiction|].
  by rewrite IH.
Qed.

(** The guarded zeroing loop, in closed form. *)
Lemma zero_present_map (cols : list string) df :
  zero_present cols df
  = (fun col : string * pyval =>
       if bool_decide (col.1 ∈ cols) then (col.1, PyInt 0) else col) <$> df.
Proof.
  revert df. induction cols as [|c0 cols IH]; intros df.
  - cbn. symmetry. rewrite <- (list_fmap_id df) at 2.
    apply list_fmap_ext. intros _ col _.
    rewrite bool_decide_eq_false_2; [reflexivity|apply not_elem_of_nil].
  - rewrite zero_present_cons.
    assert ((if df_contains c0 df then df_setitem c0 (PyInt 0) df else df)
            = (fun col : string * pyval =>
                 if String.eqb col.1 c0 then (col.1, PyInt 0) else col) <$> df)
      as ->.
    { destruct (df_contains c0 df) eqn:Hc0.
      - rewrite df_setitem_alt, Hc0. apply app_nil_r.
      - symmetry. apply relabel_absent.
        intros Hin%df_contains_spec. congruence. }
    rewrite IH, <- list_fmap_compose. apply list_fmap_ext.
    intros _ [c x] _. cbn.
    destruct (String.eqb_spec c c0) as [->|Hne]; cbn.
    + rewrite (bool_decide_eq_true_2 (c0 ∈ c0 :: cols)) by (by left).
      by destruct (bool_decide (c0 ∈ cols)).
    + destruct (bool_decide_reflect (c ∈ cols)) as [Hin|Hnin].
      * rewrite bool_decide_eq_true_2; [reflexivity|by right].
      * rewrite bool_decide_eq_false_2; [reflexivity|].
        intros [?|?]%elem_of_cons; contradiction.
Qed.

(** On a frame that has the listed columns the two zeroing loops agree. *)
Lemma zero_all_present (cols : list string) df :
  Forall (fun c => c ∈ df_columns df) cols ->
  zero_all cols df = zero_present cols df.
Proof.
  revert df. induction cols as [|c0 cols IH]; intros df Hcols; [reflexivity|].
  apply Forall_cons in Hcols as [Hc0 Hcols].
  rewrite zero_all_cons, zero_present_cons.
  rewrite (proj2 (df_contains_spec c0 df) Hc0).
  apply IH. eapply Forall_impl; [exact Hcols|].
  intros c Hc. by apply df_setitem_preserves.
Qed.

Lemma median_frame_is_sweep_frame df c :
  Forall (fun c => c ∈ df_columns df) ARRONDISSEMENT_COLUMNS ->
  c ∈ ARRONDISSEMENT_COLUMNS ->
  median_frame df c = sweep_frame df c.
Proof.
  intros Hcols Hc. rewrite median_frame_eq, sweep_frame_eq.
  rewrite (zero_all_present _ _ Hcols).
  rewrite (proj2 (df_contains_spec c _)); [reflexivity|].
  rewrite zero_present_columns.
  by apply (proj1 (Forall_forall _ _) Hcols).
Qed.

End OwnFrame.

Section OwnArrondissement.
Variable airbnb_features : list string.
Variable model_airbnb_price : Model.
Implicit Types (user_profile : gmap string pyval).

(** X23.  The turn of the sweep for the profile's own arrondissement
    scores the profile's own frame: zeroing the arrondissement columns
    and setting that column again gives the frame back. *)
Theorem sweep_own_arrondissement user_profile (df : DataFrame) (z : Z)
    (arr_col : string) :
  build_airbnb_feature_df airbnb_features user_profile = Ok df ->
  py_int (arrondissement_arg user_profile) = Ok z ->
  dict_get z ARRONDISSEMENT_MAP = Some arr_col ->
  arr_col ∈ airbnb_features ->
  sweep_frame df arr_col = df.
Proof.
  intros (feat & Hfeat & ->)%build_airbnb_inv Hz Hcol Hin.
  assert (arr_col ∈ ARRONDISSEMENT_COLUMNS) as Harr by (by apply (dict_get_column z)).
  rewrite sweep_frame_eq, zero_present_map.
  rewrite (proj2 (df_contains_spec arr_col _)).
  2:{ unfold df_columns. rewrite <- !list_fmap_compose.
      apply list_elem_of_fmap. exists arr_col. split; [|exact Hin].
      unfold compose. by case_bool_decide. }
  rewrite df_setitem_alt.
  rewrite (proj2 (df_contains_spec arr_col _)).
  2:{ unfold df_columns. rewrite <- !list_fmap_compose.
      apply list_elem_of_fmap. exists arr_col. split; [|exact Hin].
      unfold compose. by case_bool_decide. }
  rewrite app_nil_r, <- !list_fmap_compose.
  apply list_fmap_ext. intros _ c Hc%list_elem_of_lookup_2. unfold compose.
  cbv beta.
  destruct (decide (c ∈ ARRONDISSEMENT_COLUMNS)) as [Hc_arr|Hc_arr].
  - rewrite (bool_decide_eq_true_2 _ Hc_arr). cbn [fst snd].
    pose proof (airbnb_feat_arrondissement _ _ _ _ _ Hz Hfeat Hc_arr Hc) as Hv.
    apply lookup_total_correct in Hv. rewrite Hv.
    destruct (String.eqb_spec c arr_col) as [->|Hne].
    + by rewrite decide_True.
    + rewrite decide_False; [reflexivity|]. congruence.
  - rewrite (bool_decide_eq_false_2 _ Hc_arr). cbn [fst snd].
    destruct (String.eqb_spec c arr_col) as [->|Hne]; [contradiction|reflexivity].
Qed.

(** X24.  On a schema that has the twenty arrondissement columns the
    median-location price of the KPIs is the price of the sweep's row for
    arrondissement 10, and the codes of the rows are the INSEE codes
    75101 to 75120 in this order. *)
Theorem kpis_median_is_sweep_row user_profile (price : Z)
    (kpis : impact_kpis) (rows : list sweep_row) :
  Forall (fun c => c ∈ airbnb_features) ARRONDISSEMENT_COLUMNS ->
  calculate_price_impact_kpis airbnb_features model_airbnb_price
    user_profile price = Ok kpis ->
  predict_all_arrondissement_prices airbnb_features model_airbnb_price
    user_profile = Ok rows ->
  (exists row, rows !! 9%nat = Some row
               /\ Arrondissement_Number row = 10%Z
               /\ Avg_Price_Apt row = median_location_price kpis) /\
  Arrondissement_Code <$> rows
  = (fun n => PyStr.of_int (75100 + n)) <$> seqZ 1 20.
Proof.
  intros Hschema Hkpis Hrows.
  destruct (build_airbnb_feature_df airbnb_features user_profile)
    as [df|e] eqn:Hdf;
    [|unfold predict_all_arrondissement_prices in Hrows;
      by rewrite Hdf in Hrows].
  rewrite (predict_all_rows _ _ _ _ Hdf) in Hrows. apply Ok_inj in Hrows.
  unfold calculate_price_impact_kpis in Hkpis. rewrite Hdf in Hkpis.
  cbn [mbind result_bind] in Hkpis.
  change (dict_get MEDIAN_ARRONDISSEMENT ARRONDISSEMENT_MAP)
    with (Some "Arrondissement_10e") in Hkpis.
  apply Ok_inj in Hkpis. subst kpis rows. split.
  - eexists. split; [reflexivity|]. split; [reflexivity|].
    cbn [Avg_Price_Apt median_location_price snd].
    rewrite median_frame_is_sweep_frame; [reflexivity| |compute_done].
    pose proof (build_airbnb_inv _ _ _ Hdf) as (feat & _ & ->).
    by rewrite (df_columns_fmap (fun c => feat !!! c)).
  - rewrite <- list_fmap_compose. reflexivity.
Qed.

End OwnArrondissement.

Lemma sweep_own_arrondissement_witness :
  exists df,
    build_airbnb_feature_df sample_features sample_profile = Ok df /\
    sweep_frame df "Arrondissement_10e" = df.
Proof.
  destruct sample_profiles_encode as [[df Hdf] _].
  exists df. split; [exact Hdf|].
  apply (sweep_own_arrondissement sample_features sample_profile df 10 _ Hdf).
  - vm_compute. reflexivity.
  - vm_compute. reflexivity.
  - compute_done.
Defined.

Lemma kpis_median_is_sweep_row_witness :
  exists kpis rows,
    calculate_price_impact_kpis sample_features (fun _ => 0%Q) sample_profile 120
    = Ok kpis /\
    predict_all_arrondissement_prices sample_features (fun _ => 0%Q) sample_profile
    = Ok rows /\
    exists row, rows !! 9%nat = Some row
                /\ Arrondissement_Number row = 10%Z
                /\ Avg_Price_Apt row = median_location_price kpis.
Proof.
  destruct sample_profiles_encode as [[df Hdf] _].
  destruct (calculate_returns sample_features (fun _ => 0%Q) _ 120 _ Hdf)
    as [kpis Hk].
  pose proof (predict_all_rows sample_features (fun _ => 0%Q) _ _ Hdf) as Hrows.
  assert (Forall (fun c => c ∈ sample_features) ARRONDISSEMENT_COLUMNS)
    as Hschema by compute_done.
  exists kpis. eexists. split; [exact Hk|]. split; [exact Hrows|].
  exact (proj1 (kpis_median_is_sweep_row sample_features (fun _ => 0%Q)
                  sample_profile 120 kpis _ Hschema Hk Hrows)).
Defined.

(** * The stored prices as functions of the raw output *)

Section Monotone.







End Monotone.

